(** * Role-based access control of the admin panel

    A shallow embedding of the access-control code of the admin panel:
    the client facade [useAuth] (src/hooks/useAuth.ts), the route guard
    [middleware] (src/middleware.ts), the API handler [DELETE] guarded by
    [requireAdmin], the [Project] table of the Prisma migration and the
    zod schema of the project form.

    JavaScript strings are modelled by [string]; one character of the model
    stands for one UTF-16 code unit, which is what [.length] counts. *)

From stdpp Require Import base option list strings gmap fin_maps.
From Stdlib Require Import ZArith Lia.

Local Open Scope string_scope.
Local Open Scope list_scope.

(* ===================================================================== *)
(** ** JavaScript primitives the guards rely on *)
(* ===================================================================== *)

Module JS.

(** [a === b] on two strings. *)
Definition strict_eq (a b : string) : bool := String.eqb a b.

(** [v === lit] when [v] may be [undefined]: [undefined] equals no string. *)
Definition opt_strict_eq (v : option string) (lit : string) : bool :=
  match v with
  | Some s => strict_eq s lit
  | None => false
  end.

(** [v || d] for an optional string: [undefined] and the empty string are
    the falsy values. *)
Definition or_default (v : option string) (d : string) : string :=
  match v with
  | Some s => if strict_eq s "" then d else s
  | None => d
  end.

(** [!!v] for an optional object: objects are truthy. *)
Definition truthy {A} (v : option A) : bool :=
  match v with Some _ => true | None => false end.

(** [Array.prototype.includes] on an array of strings: a left-to-right
    scan comparing with SameValueZero, which is string equality here. *)
Fixpoint includes (xs : list string) (x : string) : bool :=
  match xs with
  | [] => false
  | y :: ys => if strict_eq y x then true else includes ys x
  end.

(** [s.startsWith(pre)]. *)
Definition startsWith (s pre : string) : bool := String.prefix pre s.

(** [s.length]. *)
Definition length (s : string) : nat := String.length s.

End JS.

(* ===================================================================== *)
(** ** Sessions as the auth provider hands them over *)
(* ===================================================================== *)

(** The [UserRole] enum of the Prisma model. *)
Inductive UserRole := ADMIN | MANAGER | USER.

(** The string a [UserRole] is at run time. *)
Definition UserRole_str (r : UserRole) : string :=
  match r with
  | ADMIN => "ADMIN"
  | MANAGER => "MANAGER"
  | USER => "USER"
  end.

Module BetterAuth.

(** The user object of a session.  [role] is read through
    [(user as { role?: string })?.role], so it may be absent. *)
Record User := mkUser {
  uid : string;
  name : string;
  email : string;
  role : option string
}.

(** A session object always carries its user; the absence of a session is
    the [null] of [Session | null], that is [None] of [option Session]. *)
Record Session := mkSession { user : User }.

(** [session?.user] *)
Definition session_user (session : option Session) : option User :=
  user <$> session.

(** [user?.role] *)
Definition user_role (u : option User) : option string :=
  u ≫= role.

End BetterAuth.

(* ===================================================================== *)
(** ** src/hooks/useAuth.ts *)
(* ===================================================================== *)

Module UseAuth.
Import BetterAuth.

(** What [authClient.useSession()] returns (without [refetch]). *)
Record SessionQuery := mkQuery {
  data : option Session;
  isPending : bool
}.

Definition editorPermissions : list string :=
  [ "agenda:read";
    "agenda:create";
    "agenda:update";
    "agenda:delete";
    "profile:read_own";
    "profile:update_own" ].

Definition userPermissions : list string :=
  [ "agenda:read";
    "profile:read_own";
    "profile:update_own" ].

(** The closure [hasPermission] of the hook, with the [userRole] it
    captures made a parameter. *)
Definition hasPermission (userRole : string) (permission : string) : bool :=
  if JS.strict_eq userRole "ADMIN" then true
  else if JS.strict_eq userRole "MANAGER" then
    JS.includes editorPermissions permission
  else
    JS.includes userPermissions permission.

(** The object the hook returns; the sign-in, sign-out, sign-up and
    refetch entries are pass-throughs to the auth client and carry no
    logic. *)
Record Facade := mkFacade {
  f_user : option User;
  f_session : option Session;
  isLoading : bool;
  isAuthenticated : bool;
  f_role : string;
  isAdmin : bool;
  isEditor : bool;
  canManageContent : bool;
  f_hasPermission : string → bool
}.

Definition useAuth (q : SessionQuery) : Facade :=
  let session := data q in
  let user := session_user session in
  let userRole := JS.or_default (user_role user) "USER" in
  {| f_user := user;
     f_session := session;
     isLoading := isPending q;
     isAuthenticated := JS.truthy session;
     f_role := userRole;
     isAdmin := JS.strict_eq userRole "ADMIN";
     isEditor := JS.strict_eq userRole "MANAGER";
     canManageContent :=
       JS.strict_eq userRole "ADMIN" || JS.strict_eq userRole "MANAGER";
     f_hasPermission := hasPermission userRole |}.

End UseAuth.

(* ===================================================================== *)
(** ** src/middleware.ts: the route guard *)
(* ===================================================================== *)

Module Middleware.
Import BetterAuth.

(** A URL object ([req.nextUrl] and its clones). *)
Record NextURL := mkURL {
  origin : string;
  pathname : string;
  search : string
}.

(** [url.toString()] *)
Definition href (u : NextURL) : string :=
  (origin u ++ pathname u ++ search u)%string.

(** URL objects are mutable ([url.pathname = ...]), so they live in a store
    and are passed by reference. *)
Definition ref := positive.
Abbreviation Store := (gmap positive NextURL).

(** The request: the guard reads its URL; its headers only feed the session
    resolver, whose answer is an input of the guard. *)
Record NextRequest := mkRequest { nextUrl : ref }.

(** What the guard answers: [NextResponse.redirect(url)], which carries the
    text of the URL at the time of the call, or [NextResponse.next()]. *)
Inductive NextResponse :=
| redirect (location : string)
| next.

(** Only [next] lets the request go on to the page handler. *)
Definition reaches_page_handler (r : NextResponse) : bool :=
  match r with
  | next => true
  | redirect _ => false
  end.

(** Computations over the store of URL objects; [None] is the read of a
    reference that was never allocated, which JavaScript cannot produce. *)
Definition M (A : Type) : Type := Store → option (A * Store).

#[global] Instance M_ret : MRet M := λ A a σ, Some (a, σ).

#[global] Instance M_bind : MBind M := λ A B f m σ,
  match m σ with
  | Some (a, σ') => f a σ'
  | None => None
  end.

(** [url.clone()]: a new object with the same contents. *)
Definition clone (l : ref) : M ref := λ σ,
  match σ !! l with
  | Some u => let l' := fresh (dom σ) in Some (l', <[l' := u]> σ)
  | None => None
  end.

(** [url.pathname] *)
Definition get_pathname (l : ref) : M string := λ σ,
  match σ !! l with
  | Some u => Some (pathname u, σ)
  | None => None
  end.

(** The URL [u] after [u.pathname = p]. *)
Definition with_pathname (u : NextURL) (p : string) : NextURL :=
  mkURL (origin u) p (search u).

(** [url.pathname = p] *)
Definition set_pathname (l : ref) (p : string) : M unit := λ σ,
  match σ !! l with
  | Some u => Some (tt, <[l := with_pathname u p]> σ)
  | None => None
  end.

(** [NextResponse.redirect(url)] *)
Definition NextResponse_redirect (l : ref) : M NextResponse := λ σ,
  match σ !! l with
  | Some u => Some (redirect (href u), σ)
  | None => None
  end.

(** [NextResponse.next()] *)
Definition NextResponse_next : M NextResponse := mret next.

(** [userRole !== lit] when [userRole] may be [undefined]. *)
Definition strict_ne (v : option string) (lit : string) : bool :=
  negb (JS.opt_strict_eq v lit).

(** The guard.  [session] is what
    [await auth.api.getSession({ headers: req.headers })] resolved to. *)
Definition middleware (req : NextRequest) (session : option Session)
  : M NextResponse :=
  if negb (JS.truthy (session_user session)) then
    url ← clone (nextUrl req);
    _ ← set_pathname url "/login";
    NextResponse_redirect url
  else
    let userRole := user_role (session_user session) in
    path ← get_pathname (nextUrl req);
    if JS.startsWith path "/admin" then
      if strict_ne userRole "ADMIN" && strict_ne userRole "MANAGER" then
        url ← clone (nextUrl req);
        _ ← set_pathname url "/";
        NextResponse_redirect url
      else NextResponse_next
    else NextResponse_next.

(** [config.matcher = ["/admin/:path*"]]: the guard runs for [/admin] and
    for every path below it. *)
Definition matcher (path : string) : bool :=
  JS.strict_eq path "/admin" || String.prefix "/admin/" path.

(** The framework runs the guard on the requests the matcher selects and
    lets every other request through. *)
Definition handle (req : NextRequest) (session : option Session)
  : M NextResponse :=
  path ← get_pathname (nextUrl req);
  if matcher path then middleware req session else NextResponse_next.

End Middleware.

(* ===================================================================== *)
(** ** src/app/api/agenda/[id]/route.ts: a handler behind the server guard *)
(* ===================================================================== *)

Module Api.
Import BetterAuth.

(** A row of the agenda table, without its key. *)
Record Agenda := mkAgenda {
  titulo : string;
  data : Z;
  local : string
}.

(** The agenda table, by record id. *)
Abbreviation DB := (gmap string Agenda).

(** What a handler can throw. *)
Inductive Error :=
| Unauthorized
| RecordNotFound.

(** The body given to [Response.json]. *)
Inductive Body :=
| body_error (error : string)
| body_success (success : bool).

Record Response := mkResponse {
  status : nat;
  body : Body
}.

(** [Response.json(body)] answers 200, [Response.json(body, { status })]
    the given status. *)
Definition Response_json (b : Body) (init : option nat) : Response :=
  mkResponse (default 200 init) b.

(** Handler computations: they may throw and they act on the table. *)
Definition M (A : Type) : Type := DB → (Error + A) * DB.

#[global] Instance M_ret : MRet M := λ A a db, (inr a, db).

#[global] Instance M_bind : MBind M := λ A B f m db,
  match m db with
  | (inr a, db') => f a db'
  | (inl e, db') => (inl e, db')
  end.

Definition throw {A} (e : Error) : M A := λ db, (inl e, db).

(** [try { body } catch (error) { handler }]: what [body] did to the table
    before it threw stays done. *)
Definition try_catch {A} (body : M A) (handler : Error → M A) : M A := λ db,
  match body db with
  | (inr a, db') => (inr a, db')
  | (inl e, db') => handler e db'
  end.

(** Modelled from the spec: [requireAuth] of lib/auth-server-utils.ts, which
    is not among the sources.  It resolves the session and either returns
    the authenticated user or fails with an Unauthorized condition. *)
Definition requireAuth (session : option Session) : M User :=
  match session_user session with
  | Some u => mret u
  | None => throw Unauthorized
  end.

(** Modelled from the spec: [requireAdmin] of lib/auth-server-utils.ts, which
    is not among the sources.  It returns the authenticated user when the
    role of the resolved session is ADMIN and fails with an Unauthorized
    condition otherwise; it never touches the table. *)
Definition requireAdmin (session : option Session) : M User :=
  user ← requireAuth session;
  if JS.opt_strict_eq (role user) "ADMIN" then mret user
  else throw Unauthorized.

(** [prisma.agenda.delete({ where: { id } })]: removes the record and
    returns it, and throws when there is none. *)
Definition prisma_agenda_delete (id : string) : M Agenda := λ db,
  match db !! id with
  | Some a => (inr a, delete id db)
  | None => (inl RecordNotFound, db)
  end.

(** The [DELETE] handler; [session] is what the guard's session lookup
    resolves to for this request. *)
Definition DELETE (session : option Session) (params_id : string)
  : M Response :=
  try_catch
    (user ← requireAdmin session;
     _ ← prisma_agenda_delete params_id;
     mret (Response_json (body_success true) None))
    (λ error, mret (Response_json (body_error "Unauthorized") (Some 401))).

End Api.

(* ===================================================================== *)
(** ** prisma/migrations/20251113154420_model_project/migration.sql *)
(* ===================================================================== *)

Module Migration.

Inductive SqlType := TEXT | INTEGER | BOOLEAN | TIMESTAMP.

Inductive DefaultExpr :=
| DEFAULT_bool (b : bool)
| DEFAULT_CURRENT_TIMESTAMP.

Record Column := mkColumn {
  col_name : string;
  col_type : SqlType;
  not_null : bool;
  col_default : option DefaultExpr
}.

(** [CREATE TABLE "Project"], column by column. *)
Definition Project : list Column :=
  [ mkColumn "id" TEXT true None;
    mkColumn "title" TEXT true None;
    mkColumn "description" TEXT true None;
    mkColumn "imageUrl" TEXT true None;
    mkColumn "link" TEXT false None;
    mkColumn "order" INTEGER false None;
    mkColumn "isActive" BOOLEAN true (Some (DEFAULT_bool true));
    mkColumn "createdAt" TIMESTAMP true (Some DEFAULT_CURRENT_TIMESTAMP);
    mkColumn "updatedAt" TIMESTAMP true None ].

(** [CONSTRAINT "Project_pkey" PRIMARY KEY ("id")] *)
Definition Project_pkey : string := "id".

Inductive Value :=
| NULL
| text (s : string)
| integer (z : Z)
| boolean (b : bool)
| timestamp (t : Z).

#[global] Instance Value_eq_dec : EqDecision Value.
Proof. solve_decision. Defined.

(** A row holds one value per column, in the order of the columns. *)
Definition Row := list Value.

Fixpoint field_of (cols : list Column) (name : string) (row : Row)
  : option Value :=
  match cols, row with
  | c :: cs, v :: vs =>
      if String.eqb (col_name c) name then Some v else field_of cs name vs
  | _, _ => None
  end.

(** The value of column [name] in a row of [Project]. *)
Definition field (name : string) (row : Row) : option Value :=
  field_of Project name row.

Definition has_type (v : Value) (t : SqlType) : bool :=
  match v, t with
  | text _, TEXT => true
  | integer _, INTEGER => true
  | boolean _, BOOLEAN => true
  | timestamp _, TIMESTAMP => true
  | _, _ => false
  end.

(** A column takes a value of its type, and [NULL] unless it is NOT NULL. *)
Definition column_accepts (c : Column) (v : Value) : bool :=
  match v with
  | NULL => negb (not_null c)
  | _ => has_type v (col_type c)
  end.

Fixpoint row_accepts (cols : list Column) (row : Row) : bool :=
  match cols, row with
  | [], [] => true
  | c :: cs, v :: vs => column_accepts c v && row_accepts cs vs
  | _, _ => false
  end.

(** The value an INSERT or UPDATE gives for a column, if it names it. *)
Fixpoint assigned (name : string) (assignments : list (string * Value))
  : option Value :=
  match assignments with
  | [] => None
  | (n, v) :: rest => if String.eqb n name then Some v else assigned name rest
  end.

Definition is_column (name : string) : bool :=
  existsb (λ c, String.eqb (col_name c) name) Project.

Definition eval_default (now : Z) (d : DefaultExpr) : Value :=
  match d with
  | DEFAULT_bool b => boolean b
  | DEFAULT_CURRENT_TIMESTAMP => timestamp now
  end.

(** A column left out of an INSERT takes its default, or NULL without one. *)
Definition inserted_value (now : Z) (assignments : list (string * Value))
  (c : Column) : Value :=
  match assigned (col_name c) assignments with
  | Some v => v
  | None =>
      match col_default c with
      | Some d => eval_default now d
      | None => NULL
      end
  end.

Definition key_taken (k : option Value) (table : list Row) : bool :=
  existsb (λ r, bool_decide (field Project_pkey r = k)) table.

(** [INSERT INTO "Project" (...) VALUES (...)] at time [now]; [None] is a
    rejected statement, which leaves the table as it was. *)
Definition INSERT (now : Z) (assignments : list (string * Value))
  (table : list Row) : option (list Row) :=
  let row := map (inserted_value now assignments) Project in
  if forallb (λ a, is_column a.1) assignments
     && row_accepts Project row
     && negb (key_taken (field Project_pkey row) table)
  then Some (table ++ [row])%list
  else None.

(** A column left out of an UPDATE keeps its value. *)
Fixpoint updated_row (cols : list Column) (assignments : list (string * Value))
  (row : Row) : Row :=
  match cols, row with
  | c :: cs, v :: vs =>
      match assigned (col_name c) assignments with
      | Some v' => v'
      | None => v
      end :: updated_row cs assignments vs
  | _, _ => []
  end.

(** [UPDATE "Project" SET ... WHERE "id" = id] *)
Definition UPDATE (id : string) (assignments : list (string * Value))
  (table : list Row) : option (list Row) :=
  let hit r := bool_decide (field Project_pkey r = Some (text id)) in
  let table' :=
    map (λ r, if hit r then updated_row Project assignments r else r) table in
  let others := filter (λ r, hit r = false) table in
  if forallb (λ a, is_column a.1) assignments
     && forallb (row_accepts Project) table'
     && forallb (λ r, negb (hit r) ||
                      negb (key_taken
                              (field Project_pkey
                                 (updated_row Project assignments r)) others))
          table
  then Some table'
  else None.

(** [DELETE FROM "Project" WHERE "id" = id] *)
Definition DELETE (id : string) (table : list Row) : list Row :=
  filter (λ r, field Project_pkey r ≠ Some (text id)) table.

(** The tables the statements above can produce from the empty one. *)
Inductive persisted : list Row → Prop :=
| persisted_empty : persisted []
| persisted_insert now assignments table table' :
    persisted table →
    INSERT now assignments table = Some table' →
    persisted table'
| persisted_update id assignments table table' :
    persisted table →
    UPDATE id assignments table = Some table' →
    persisted table'
| persisted_delete id table :
    persisted table →
    persisted (DELETE id table).

End Migration.

(* ===================================================================== *)
(** ** src/app/admin/projects/_components/project-form.tsx: [formSchema] *)
(* ===================================================================== *)

Module ProjectForm.

(** The values a form field can hold when the schema sees it. *)
Inductive JsValue :=
| undefined
| null
| str (s : string)
| boolean (b : bool)
| number (z : Z).

Record FormInput := mkInput {
  title : JsValue;
  imageUrl : JsValue;
  link : JsValue;
  description : JsValue;
  isActive : JsValue
}.

Inductive IssueCode := invalid_type | too_small | too_big.

Record Issue := mkIssue {
  path : string;
  code : IssueCode;
  message : option string
}.

(** The length checks chained on a [z.string()]. *)
Inductive StringCheck :=
| z_min (minimum : nat) (message : string)
| z_max (maximum : nat) (message : string).

Definition run_check (p : string) (s : string) (c : StringCheck)
  : list Issue :=
  match c with
  | z_min n msg =>
      if (JS.length s <? n)%nat then [mkIssue p too_small (Some msg)] else []
  | z_max n msg =>
      if (n <? JS.length s)%nat then [mkIssue p too_big (Some msg)] else []
  end.

(** What a check asks of the string. *)
Definition check_holds (s : string) (c : StringCheck) : Prop :=
  match c with
  | z_min n _ => (n ≤ JS.length s)%nat
  | z_max n _ => (JS.length s ≤ n)%nat
  end.

(** [z.string()] with its checks: a value that is not a string is one
    [invalid_type] issue; on a string every check runs and reports. *)
Definition z_string (checks : list StringCheck) (p : string) (v : JsValue)
  : list Issue :=
  match v with
  | str s => concat (map (run_check p s) checks)
  | _ => [mkIssue p invalid_type None]
  end.

(** [schema.optional()] *)
Definition z_optional (schema : string → JsValue → list Issue)
  (p : string) (v : JsValue) : list Issue :=
  match v with
  | undefined => []
  | _ => schema p v
  end.

(** [z.boolean()] *)
Definition z_boolean (p : string) (v : JsValue) : list Issue :=
  match v with
  | boolean _ => []
  | _ => [mkIssue p invalid_type None]
  end.

(** The issues [formSchema] finds in an input, field by field. *)
Definition formSchema (input : FormInput) : list Issue :=
  (z_string
    [ z_min 1 "O título é obrigatório.";
      z_min 3 "O título deve ter pelo menos 3 caracteres.";
      z_max 100 "O título deve ter no máximo 100 caracteres." ]
    "title" (title input)
  ++ z_string
       [ z_min 1 "A imagem do projeto é obrigatória." ]
       "imageUrl" (imageUrl input)
  ++ z_optional (z_string []) "link" (link input)
  ++ z_string
       [ z_max 500 "Os detalhes devem ter no máximo 500 caracteres." ]
       "description" (description input)
  ++ z_boolean "isActive" (isActive input))%list.

(** The resolver lets the form submit when the schema finds no issue. *)
Definition accepts (input : FormInput) : bool :=
  match formSchema input with
  | [] => true
  | _ :: _ => false
  end.

End ProjectForm.

(* ===================================================================== *)
(** ** The role model in the words of the specification *)
(* ===================================================================== *)

Module RoleModel.

(** USER's allow-list as the specification enumerates it. *)
Definition USER_allow_list : list string :=
  [ "agenda:read"; "profile:read_own"; "profile:update_own" ].

(** What MANAGER is granted on top of USER's list. *)
Definition MANAGER_additions : list string :=
  [ "agenda:create"; "agenda:update"; "agenda:delete" ].

(** The explicit allow-list of a role; ADMIN has none, it is granted
    everything. *)
Definition allow_list (r : UserRole) : list string :=
  match r with
  | USER => USER_allow_list
  | MANAGER => USER_allow_list ++ MANAGER_additions
  | ADMIN => []
  end.

(** The closed permission vocabulary. *)
Definition vocabulary : list string :=
  [ "agenda:read"; "agenda:create"; "agenda:update"; "agenda:delete";
    "profile:read_own"; "profile:update_own" ].

End RoleModel.

(* ===================================================================== *)
(** ** The Project record in the words of the specification *)
(* ===================================================================== *)

Module ProjectModel.
Import Migration.

(** A Project record: id, title, description and image reference are
    present; link and ordering may be missing; the active flag and the two
    timestamps are present. *)
Definition project_record (row : Row) : Prop :=
  (∃ s, field "id" row = Some (text s))
  ∧ (∃ s, field "title" row = Some (text s))
  ∧ (∃ s, field "description" row = Some (text s))
  ∧ (∃ s, field "imageUrl" row = Some (text s))
  ∧ (field "link" row = Some NULL ∨ ∃ s, field "link" row = Some (text s))
  ∧ (field "order" row = Some NULL
     ∨ ∃ z, field "order" row = Some (integer z))
  ∧ (∃ b, field "isActive" row = Some (boolean b))
  ∧ (∃ t, field "createdAt" row = Some (timestamp t))
  ∧ (∃ t, field "updatedAt" row = Some (timestamp t)).

End ProjectModel.

(* ===================================================================== *)
(** ** src/lib/auth.ts: the session the server hands out *)
(* ===================================================================== *)

Module AuthConfig.
Import BetterAuth.

(** The user table as the session plugin reads it: for each user id the
    role column, which may hold no value. *)
Abbreviation UserTable := (gmap string (option string)).

(** [prisma.user.findUnique({ where: { id }, select: { role: true } })]:
    the selected row, or [null] when no user has this id. *)
Definition findUnique_role (users : UserTable) (id : string)
  : option (option string) :=
  users !! id.

(** [dbUser?.role] *)
Definition dbUser_role (dbUser : option (option string)) : option string :=
  match dbUser with
  | Some r => r
  | None => None
  end.

(** The [customSession] callback: the user of the session is the user the
    provider resolved, with its role replaced by the stored one, or by
    "USER" when there is none. *)
Definition customSession (users : UserTable) (user : User) : Session :=
  let dbUser := findUnique_role users (uid user) in
  mkSession
    (mkUser (uid user) (name user) (email user)
       (Some (JS.or_default (dbUser_role dbUser) "USER"))).

(** [auth.api.getSession]: [null] when the provider resolves no user from
    the request, the custom session of the user it resolves otherwise. *)
Definition getSession (users : UserTable) (resolved : option User)
  : option Session :=
  customSession users <$> resolved.

End AuthConfig.

(* ===================================================================== *)
(** ** src/app/api/agenda/[id]/route.ts: the [PUT] handler *)
(* ===================================================================== *)

Module AgendaApi.
Import BetterAuth Api.

(** What the body of [PUT] can throw: what the guard throws, the
    [SyntaxError] of [request.json()], and the errors of the database
    client, by their code. *)
Inductive Thrown :=
| guard_failed (e : Error)
| SyntaxError
| PrismaError (code : string).

(** Computations of the handler over the agenda table. *)
Definition H (A : Type) : Type := DB → (Thrown + A) * DB.

#[global] Instance H_ret : MRet H := λ A a db, (inr a, db).

#[global] Instance H_bind : MBind H := λ A B f m db,
  match m db with
  | (inr a, db') => f a db'
  | (inl e, db') => (inl e, db')
  end.

Definition raise {A} (e : Thrown) : H A := λ db, (inl e, db).

(** A guard of the server, run inside the handler. *)
Definition run_guard {A} (m : M A) : H A := λ db,
  match m db with
  | (inr a, db') => (inr a, db')
  | (inl e, db') => (inl (guard_failed e), db')
  end.

(** [try { body } catch (error) { handler }] *)
Definition try_catch {A} (body : H A) (handler : Thrown → H A) : H A :=
  λ db,
  match body db with
  | (inr a, db') => (inr a, db')
  | (inl e, db') => handler e db'
  end.

(** Modelled from the spec: [requireManagerOrAdmin] of
    lib/auth-server-utils.ts, which is not among the sources.  It returns
    the authenticated user when the role of the resolved session is MANAGER
    or ADMIN and fails with an Unauthorized condition otherwise. *)
Definition requireManagerOrAdmin (session : option Session) : M User :=
  user ← requireAuth session;
  if JS.opt_strict_eq (role user) "ADMIN"
     || JS.opt_strict_eq (role user) "MANAGER"
  then mret user
  else throw Unauthorized.

(** The [data] of an update: the columns it sets. *)
Record AgendaData := mkData {
  d_id : option string;
  d_titulo : option string;
  d_data : option Z;
  d_local : option string
}.

(** What the request carries as its body. *)
Inductive RequestBody :=
| not_json
| json_other
| json_data (d : AgendaData).

(** [await request.json()]: throws on a body that is not JSON. *)
Definition request_json (b : RequestBody) : H RequestBody :=
  match b with
  | not_json => raise SyntaxError
  | _ => mret b
  end.

Definition apply_data (d : AgendaData) (a : Agenda) : Agenda :=
  mkAgenda (default (titulo a) (d_titulo d))
           (default (data a) (d_data d))
           (default (local a) (d_local d)).

(** [prisma.agenda.update({ where: { id }, data })]: rejects data that does
    not fit the model, throws when there is no record under [id] or when
    the new id is taken, and otherwise stores and returns the updated
    record. *)
Definition prisma_agenda_update (id : string) (body : RequestBody)
  : H (string * Agenda) := λ db,
  match body with
  | json_data d =>
      match db !! id with
      | None => (inl (PrismaError "P2025"), db)
      | Some a =>
          let id' := default id (d_id d) in
          if bool_decide (id' ≠ id) && bool_decide (is_Some (db !! id'))
          then (inl (PrismaError "P2002"), db)
          else (inr (id', apply_data d a),
                <[id' := apply_data d a]> (delete id db))
      end
  | _ => (inl (PrismaError "validation"), db)
  end.

Inductive PutBody :=
| put_error (error : string)
| put_agenda (id : string) (a : Agenda).

Record PutResponse := mkPutResponse {
  put_status : nat;
  put_body : PutBody
}.

(** The [PUT] handler. *)
Definition PUT (session : option Session) (params_id : string)
  (request_body : RequestBody) : H PutResponse :=
  try_catch
    (user ← run_guard (requireManagerOrAdmin session);
     body ← request_json request_body;
     updatedAgenda ← prisma_agenda_update params_id body;
     mret (mkPutResponse 200
             (put_agenda updatedAgenda.1 updatedAgenda.2)))
    (λ error, mret (mkPutResponse 401 (put_error "Unauthorized"))).

End AgendaApi.

(* ===================================================================== *)
(** ** src/app/admin/projects/_components/project-form.tsx: the component *)
(* ===================================================================== *)

Module ProjectFormComponent.
Import ProjectForm.

(** The project the store holds as selected.  The type of the store is not
    among the sources; a project has the fields the form reads, each of
    which the form treats as possibly missing. *)
Record Project := mkProject {
  p_id : option string;
  p_title : option string;
  p_imageUrl : option string;
  p_description : option string;
  p_link : option string;
  p_isActive : option bool
}.

(** The values of the form. *)
Record FormValues := mkValues {
  v_title : string;
  v_imageUrl : string;
  v_link : option string;
  v_description : string;
  v_isActive : bool
}.

Inductive ImageSource := source_url | source_file.

(** The state of the component: the selected project of the store, its own
    three state variables, the values of the form, and the object URLs
    that were created and not revoked yet. *)
Record State := mkState {
  selectedProject : option Project;
  imageSource : ImageSource;
  isUploading : bool;
  imageFile : option string;
  values : FormValues;
  live : gset string
}.

Definition defaultValues : FormValues := mkValues "" "" (Some "") "" true.

(** The component as first rendered, before its effects run. *)
Definition initial (selected : option Project) : State :=
  mkState selected source_url false None defaultValues ∅.

(** [!!s] for an optional string. *)
Definition truthy_string (v : option string) : bool :=
  match v with
  | Some s => negb (JS.strict_eq s "")
  | None => false
  end.

(** [const isEditing = !!selectedProject?.id] *)
Definition isEditing (st : State) : bool :=
  truthy_string (selectedProject st ≫= p_id).

(** [URL.revokeObjectURL(url)] *)
Definition revokeObjectURL (url : string) (urls : gset string)
  : gset string :=
  urls ∖ {[ url ]}.

(** [if (currentImageUrl && currentImageUrl.startsWith("blob:"))
      URL.revokeObjectURL(currentImageUrl)] *)
Definition revoke_current (currentImageUrl : string) (urls : gset string)
  : gset string :=
  if truthy_string (Some currentImageUrl)
     && JS.startsWith currentImageUrl "blob:"
  then revokeObjectURL currentImageUrl urls
  else urls.

Definition set_imageUrl (v : FormValues) (url : string) : FormValues :=
  mkValues (v_title v) url (v_link v) (v_description v) (v_isActive v).

(** The values [form.reset] is given for a project being edited. *)
Definition values_of_project (p : Project) : FormValues :=
  mkValues (JS.or_default (p_title p) "")
           (JS.or_default (p_imageUrl p) "")
           (Some (JS.or_default (p_link p) ""))
           (JS.or_default (p_description p) "")
           (default true (p_isActive p)).

(** The effect that runs when the component mounts and whenever the
    selected project changes. *)
Definition selectedProject_effect (st : State) : State :=
  let urls := revoke_current (v_imageUrl (values st)) (live st) in
  match selectedProject st with
  | Some p =>
      if isEditing st && truthy_string (p_id p) then
        mkState (selectedProject st)
          (if truthy_string (p_imageUrl p) then source_url
           else imageSource st)
          (isUploading st) None (values_of_project p) urls
      else
        mkState (selectedProject st) source_url (isUploading st) None
          defaultValues urls
  | None =>
      mkState (selectedProject st) source_url (isUploading st) None
        defaultValues urls
  end.

(** The store selects another project (or none): the component renders
    again and the effect runs. *)
Definition select (p : option Project) (st : State) : State :=
  selectedProject_effect
    (mkState p (imageSource st) (isUploading st) (imageFile st)
       (values st) (live st)).

Definition mount (selected : option Project) : State :=
  selectedProject_effect (initial selected).

(** The cleanup of the first effect, run when the component unmounts. *)
Definition unmount (st : State) : State :=
  mkState (selectedProject st) (imageSource st) (isUploading st)
    (imageFile st) (values st)
    (revoke_current (v_imageUrl (values st)) (live st)).

Definition handleImageSourceChange (source : ImageSource) (st : State)
  : State :=
  mkState (selectedProject st) source (isUploading st) None
    (set_imageUrl (values st) "")
    (revoke_current (v_imageUrl (values st)) (live st)).

(** [onChange] of the file input: [file] is [e.target.files?.[0]] and
    [previewUrl] what [URL.createObjectURL(file)] returns. *)
Definition file_onChange (file : option string) (previewUrl : string)
  (st : State) : State :=
  match file with
  | Some f =>
      mkState (selectedProject st) (imageSource st) (isUploading st)
        (Some f) (set_imageUrl (values st) previewUrl)
        (revoke_current (v_imageUrl (values st)) (live st) ∪ {[ previewUrl ]})
  | None => st
  end.

(** What [handleCancel] does to the component; it also clears the
    selection of the store and calls [onSuccess]. *)
Definition handleCancel (st : State) : State :=
  mkState None (imageSource st) (isUploading st) None (values st)
    (revoke_current (v_imageUrl (values st)) (live st)).

(** What a rejected promise or a [throw] carries. *)
Inductive Thrown :=
| js_error (message : string)
| js_other.

(** How the upload went: the request or the parsing of its answer threw,
    or the answer is the object [{ success, url, message }]. *)
Inductive UploadOutcome :=
| upload_throws (t : Thrown)
| upload_result (success : bool) (url : option string)
    (message : option string).

Inductive StoreOutcome :=
| store_ok
| store_throws (t : Thrown).

(** What the store is given. *)
Record Submission := mkSubmission {
  s_title : string;
  s_imageUrl : option string;
  s_link : option string;
  s_description : string;
  s_isActive : bool
}.

(** What [onSubmit] does to the world around the component. *)
Inductive Effect :=
| fetch_upload (file : string)
| updateProject (id : string) (data : Submission)
| createProject (data : Submission)
| toast_success (message : string)
| toast_error (message : string)
| console_error
| setSelectedProject_null
| onSuccess.

(** The body of the inner [try] of the upload. *)
Definition upload (o : UploadOutcome) : Thrown + option string :=
  match o with
  | upload_throws t => inl t
  | upload_result success url message =>
      if success then inr url
      else inl (js_error (JS.or_default message "Erro no upload da imagem."))
  end.

(** [error instanceof Error ? error.message : "..."] *)
Definition error_message (t : Thrown) : string :=
  match t with
  | js_error message => message
  | js_other => "Ocorreu um erro ao salvar o projeto."
  end.

(** [{ ...values, imageUrl: submissionImageUrl }] *)
Definition dataToSubmit (v : FormValues) (submissionImageUrl : option string)
  : Submission :=
  mkSubmission (v_title v) submissionImageUrl (v_link v) (v_description v)
    (v_isActive v).

(** [onSubmit(values)], given how the upload and the store call go. *)
Definition onSubmit (v : FormValues) (up : UploadOutcome)
  (store : StoreOutcome) (st : State) : list Effect * State :=
  let attempt : list Effect * (Thrown + option string) :=
    match imageFile st, imageSource st with
    | Some f, source_file => ([fetch_upload f], upload up)
    | _, _ => ([], inr (Some (v_imageUrl v)))
    end in
  let tried : list Effect * bool :=
    match attempt.2 with
    | inl t => (attempt.1 ++ [console_error; toast_error (error_message t)],
                false)
    | inr submissionImageUrl =>
        let data := dataToSubmit v submissionImageUrl in
        let call :=
          if isEditing st
          then (updateProject (default "" (selectedProject st ≫= p_id)) data,
                "Projeto atualizado com sucesso!")
          else (createProject data, "Projeto criado com sucesso!") in
        match store with
        | store_throws t =>
            (attempt.1
             ++ [call.1; console_error; toast_error (error_message t)],
             false)
        | store_ok =>
            (attempt.1
             ++ [call.1; toast_success call.2; setSelectedProject_null;
                 onSuccess],
             true)
        end
    end in
  (tried.1,
   mkState (if tried.2 then None else selectedProject st)
     (imageSource st)
     (match attempt.1 with [] => isUploading st | _ :: _ => false end)
     None (values st)
     (if JS.startsWith (v_imageUrl v) "blob:"
      then revokeObjectURL (v_imageUrl v) (live st)
      else live st)).

(** The values as the resolver hands them to the schema. *)
Definition to_input (v : FormValues) : FormInput :=
  mkInput (str (v_title v)) (str (v_imageUrl v))
    (match v_link v with Some l => str l | None => undefined end)
    (str (v_description v)) (boolean (v_isActive v)).

(** [form.handleSubmit(onSubmit)]: [onSubmit] runs on the values of the
    form when the schema accepts them, and not at all otherwise. *)
Definition handleSubmit (up : UploadOutcome) (store : StoreOutcome)
  (st : State) : list Effect * State :=
  if accepts (to_input (values st))
  then onSubmit (values st) up store st
  else ([], st).

(** What can happen to a mounted form.  Each handler runs to its end
    before the next event. *)
Inductive Event :=
| ev_select (p : option Project)
| ev_source (source : ImageSource)
| ev_file (file : option string) (previewUrl : string)
| ev_type_title (s : string)
| ev_type_imageUrl (s : string)
| ev_type_link (s : string)
| ev_type_description (s : string)
| ev_toggle_isActive (b : bool)
| ev_cancel
| ev_submit (up : UploadOutcome) (store : StoreOutcome).

Definition with_values (st : State) (v : FormValues) : State :=
  mkState (selectedProject st) (imageSource st) (isUploading st)
    (imageFile st) v (live st).

(** One event.  The text input of the image is there in URL mode only and
    the file input in file mode only; [URL.createObjectURL] returns URLs
    of the blob scheme. *)
Definition step (st : State) (e : Event) : State :=
  match e with
  | ev_select p => select p st
  | ev_source source => handleImageSourceChange source st
  | ev_file file previewUrl =>
      match imageSource st with
      | source_file =>
          if JS.startsWith previewUrl "blob:"
          then file_onChange file previewUrl st
          else st
      | source_url => st
      end
  | ev_type_title s =>
      with_values st
        (mkValues s (v_imageUrl (values st)) (v_link (values st))
           (v_description (values st)) (v_isActive (values st)))
  | ev_type_imageUrl s =>
      match imageSource st with
      | source_url => with_values st (set_imageUrl (values st) s)
      | source_file => st
      end
  | ev_type_link s =>
      with_values st
        (mkValues (v_title (values st)) (v_imageUrl (values st)) (Some s)
           (v_description (values st)) (v_isActive (values st)))
  | ev_type_description s =>
      with_values st
        (mkValues (v_title (values st)) (v_imageUrl (values st))
           (v_link (values st)) s (v_isActive (values st)))
  | ev_toggle_isActive b =>
      with_values st
        (mkValues (v_title (values st)) (v_imageUrl (values st))
           (v_link (values st)) (v_description (values st)) b)
  | ev_cancel => handleCancel st
  | ev_submit up store => (handleSubmit up store st).2
  end.

(** The form after a sequence of events. *)
Definition run (st : State) (events : list Event) : State :=
  foldl step st events.

(** The invariant of the object URLs: at most the image shown is a live
    object URL, and none is live in URL mode. *)
Definition preview_only (st : State) : Prop :=
  (∀ u, u ∈ live st →
        u = v_imageUrl (values st) ∧ JS.startsWith u "blob:" = true)
  ∧ (imageSource st = source_url → live st = ∅).

End ProjectFormComponent.

(* ===================================================================== *)
(** ** src/components/agenda/AgendaCard.tsx: the buttons of a card *)
(* ===================================================================== *)

Module AgendaCard.

(** Which of the three buttons the card renders. *)
Record Buttons := mkButtons {
  ver_detalhes : bool;
  editar : bool;
  excluir : bool
}.

(** The card reads [hasPermission] and [isAdmin] off the hook. *)
Definition buttons (f : UseAuth.Facade) : Buttons :=
  mkButtons true
    (UseAuth.f_hasPermission f "agenda:update")
    (UseAuth.isAdmin f).

End AgendaCard.

(* ===================================================================== *)
(** ** src/app/admin/projects/page.tsx: the dialogs of the page *)
(* ===================================================================== *)

Module ProjectsPage.
Import ProjectFormComponent.

(** The state of the page that its handlers touch: the selection of the
    store and the three state variables of the page. *)
Record State := mkState {
  selectedProject : option Project;
  isFormDialogOpen : bool;
  isDeleteDialogOpen : bool;
  projectToDelete : option Project
}.

Definition initial : State := mkState None false false None.

(** [handleOpenFormDialog(project?)]: [project || null] is selected. *)
Definition handleOpenFormDialog (project : option Project) (st : State)
  : State :=
  mkState project true (isDeleteDialogOpen st) (projectToDelete st).

Definition handleCloseFormDialog (st : State) : State :=
  mkState None false (isDeleteDialogOpen st) (projectToDelete st).

Definition handleOpenDeleteDialog (project : Project) (st : State) : State :=
  mkState (selectedProject st) (isFormDialogOpen st) true (Some project).

Definition handleCloseDeleteDialog (st : State) : State :=
  mkState (selectedProject st) (isFormDialogOpen st) false None.

(** [handleDeleteConfirm]: the ids it passes to [deleteProject] (none or
    one) and the state it leaves.  The id of a project is passed as it is,
    missing or not. *)
Definition handleDeleteConfirm (st : State)
  : list (option string) * State :=
  match projectToDelete st with
  | Some p => ([p_id p], handleCloseDeleteDialog st)
  | None => ([], st)
  end.

(** The title of the form dialog:
    [selectedProject?.id ? "Editar Projeto" : "Novo Projeto"]. *)
Definition form_dialog_title (st : State) : string :=
  if truthy_string (selectedProject st ≫= p_id)
  then "Editar Projeto" else "Novo Projeto".

(** What the user can do on the page. *)
Inductive Event :=
| ev_new
| ev_edit (p : Project)
| ev_close_form
| ev_excluir (p : Project)
| ev_close_delete
| ev_confirm.

(** One event: the calls of [deleteProject] it makes and the next state.
    The confirm button is part of the delete dialog and is there only
    while that dialog is open. *)
Definition step (st : State) (e : Event) : list (option string) * State :=
  match e with
  | ev_new => ([], handleOpenFormDialog None st)
  | ev_edit p => ([], handleOpenFormDialog (Some p) st)
  | ev_close_form => ([], handleCloseFormDialog st)
  | ev_excluir p => ([], handleOpenDeleteDialog p st)
  | ev_close_delete => ([], handleCloseDeleteDialog st)
  | ev_confirm =>
      if isDeleteDialogOpen st then handleDeleteConfirm st else ([], st)
  end.

(** A sequence of events: all the calls of [deleteProject], in order, and
    the final state. *)
Fixpoint run (st : State) (events : list Event)
  : list (option string) * State :=
  match events with
  | [] => ([], st)
  | e :: rest =>
      let r := step st e in
      let r' := run r.2 rest in
      (r.1 ++ r'.1, r'.2)
  end.

(** The projects whose delete button was pressed, in order. *)
Definition pressed (events : list Event) : list Project :=
  omap (λ e, match e with ev_excluir p => Some p | _ => None end) events.

End ProjectsPage.

(* ===================================================================== *)
(** ** src/hooks/useScrollAnimation.tsx *)
(* ===================================================================== *)

Module ScrollAnimation.

(** The state of the hook: [isVisible], and whether the observer still
    observes the element. *)
Record State := mkState {
  isVisible : bool;
  observing : bool
}.

(** After [observer.observe(element)] in the effect. *)
Definition initial : State := mkState false true.

(** The callback of the observer on an entry, [isIntersecting] being
    [entry.isIntersecting]. *)
Definition callback (triggerOnce : bool) (isIntersecting : bool)
  (st : State) : State :=
  if isIntersecting then
    mkState true (if triggerOnce then false else observing st)
  else if negb triggerOnce then
    mkState false (observing st)
  else st.

(** The browser reports an entry: the callback runs as long as the element
    is observed. *)
Definition report (triggerOnce : bool) (st : State) (isIntersecting : bool)
  : State :=
  if observing st then callback triggerOnce isIntersecting st else st.

Definition run (triggerOnce : bool) (entries : list bool) : State :=
  foldl (report triggerOnce) initial entries.

End ScrollAnimation.

(* ===================================================================== *)
(** ** Sample inputs *)
(* ===================================================================== *)

(** A user whose role field holds [r]. *)
Definition user_with_role (r : option string) : BetterAuth.User :=
  BetterAuth.mkUser "u1" "Ana" "ana@example.com" r.

Definition session_with_role (r : option string) : BetterAuth.Session :=
  BetterAuth.mkSession (user_with_role r).

(** What the session hook gives for that user once it has loaded. *)
Definition query_with_role (r : option string) : UseAuth.SessionQuery :=
  UseAuth.mkQuery (Some (session_with_role r)) false.

(** A request for [/admin/projects]; its URL object sits at reference 1. *)
Definition admin_projects_url : Middleware.NextURL :=
  Middleware.mkURL "https://example.com" "/admin/projects" "?page=2".

Definition admin_projects_request : Middleware.NextRequest :=
  Middleware.mkRequest 1%positive.

Definition admin_projects_store : gmap positive Middleware.NextURL :=
  {[ 1%positive := admin_projects_url ]}.

(** An agenda table with one record. *)
Definition agenda_db : gmap string Api.Agenda :=
  {[ "a1" := Api.mkAgenda "Reuniao" 1763000000 "Sala 2" ]}.

(** An INSERT that names neither link, order, isActive nor createdAt. *)
Definition minimal_project : list (string * Migration.Value) :=
  [ ("id", Migration.text "p1");
    ("title", Migration.text "Portfolio");
    ("description", Migration.text "");
    ("imageUrl", Migration.text "/uploads/p1.png");
    ("updatedAt", Migration.timestamp 1763000000) ].

(** The row it stores at time 1763000000. *)
Definition minimal_project_row : Migration.Row :=
  [ Migration.text "p1"; Migration.text "Portfolio"; Migration.text "";
    Migration.text "/uploads/p1.png"; Migration.NULL; Migration.NULL;
    Migration.boolean true; Migration.timestamp 1763000000;
    Migration.timestamp 1763000000 ].

(** A form filled in with a three-letter title and no link field. *)
Definition short_form : ProjectForm.FormInput :=
  ProjectForm.mkInput (ProjectForm.str "CMS") (ProjectForm.str "/a.png")
    ProjectForm.undefined (ProjectForm.str "") (ProjectForm.boolean true).

(** A user table with one admin, one manager and a user without a role. *)
Definition user_table : gmap string (option string) :=
  {[ "u1" := Some "ADMIN"; "u2" := Some "MANAGER"; "u3" := None ]}.

(** What the provider resolves for a request of user [id], who claims the
    role ADMIN. *)
Definition resolved_user (id : string) : BetterAuth.User :=
  BetterAuth.mkUser id "Ana" "ana@example.com" (Some "ADMIN").

(** An update of the place of an agenda record. *)
Definition move_agenda : AgendaApi.AgendaData :=
  AgendaApi.mkData None None None (Some "Sala 5").

(** A stored project without a link, and the form in file mode with a
    picked file and its preview. *)
Definition stored_project : ProjectFormComponent.Project :=
  ProjectFormComponent.mkProject (Some "p1") (Some "Portfolio")
    (Some "/uploads/p1.png") (Some "Site") None (Some false).

Definition form_with_preview : ProjectFormComponent.State :=
  ProjectFormComponent.run (ProjectFormComponent.mount None)
    [ ProjectFormComponent.ev_type_title "Portfolio";
      ProjectFormComponent.ev_source ProjectFormComponent.source_file;
      ProjectFormComponent.ev_file (Some "photo.png") "blob:1f0c" ].

(* ===================================================================== *)
(** ** Properties *)
(* ===================================================================== *)

Section JSFacts.

Lemma strict_eq_true (a b : string) : JS.strict_eq a b = true ↔ a = b.
Proof. apply String.eqb_eq. Qed.

Lemma strict_eq_false (a b : string) : JS.strict_eq a b = false ↔ a ≠ b.
Proof. apply String.eqb_neq. Qed.

Lemma strict_eq_refl (a : string) : JS.strict_eq a a = true.
Proof. apply String.eqb_refl. Qed.

(** [includes] decides membership. *)
Lemma includes_elem_of (xs : list string) (x : string) :
  JS.includes xs x = true ↔ x ∈ xs.
Proof.
  induction xs as [|y ys IH]; simpl.
  - split; [discriminate | intros H; inversion H].
  - destruct (JS.strict_eq y x) eqn:E.
    + apply strict_eq_true in E as ->. split; [intros _; left | done].
    + apply strict_eq_false in E. rewrite IH. split.
      * intros H. by right.
      * intros H. inversion H; subst; [congruence | done].
Qed.

Lemma includes_app (xs ys : list string) (x : string) :
  JS.includes (xs ++ ys) x = JS.includes xs x || JS.includes ys x.
Proof.
  induction xs as [|y xs IH]; simpl; [done|].
  by destruct (JS.strict_eq y x).
Qed.

End JSFacts.

(* ===================================================================== *)
(** ** The client facade *)
(* ===================================================================== *)

Section FacadeFacts.
Import BetterAuth UseAuth.

(** The two literal arrays of the closure against the role model. *)
Lemma userPermissions_allow_list (p : string) :
  JS.includes userPermissions p = true ↔ p ∈ RoleModel.USER_allow_list.
Proof. apply includes_elem_of. Qed.

Lemma editorPermissions_allow_list (p : string) :
  JS.includes editorPermissions p = true
  ↔ p ∈ RoleModel.USER_allow_list ++ RoleModel.MANAGER_additions.
Proof.
  rewrite includes_elem_of.
  unfold editorPermissions, RoleModel.USER_allow_list,
    RoleModel.MANAGER_additions.
  rewrite elem_of_app, !elem_of_cons, !elem_of_nil. tauto.
Qed.

(** The array of the last branch is part of the array of the MANAGER
    branch. *)
Lemma userPermissions_subseteq : userPermissions ⊆ editorPermissions.
Proof.
  intros p. unfold userPermissions, editorPermissions.
  rewrite !elem_of_cons, !elem_of_nil. tauto.
Qed.

(** A role that is neither of the two privileged literals falls through to
    the last branch of the closure. *)
Lemma hasPermission_fall_through (userRole p : string) :
  userRole ≠ "ADMIN" → userRole ≠ "MANAGER" →
  hasPermission userRole p = JS.includes userPermissions p.
Proof.
  intros HA HM. unfold hasPermission.
  apply strict_eq_false in HA, HM. by rewrite HA, HM.
Qed.

(** A session is missing its user only when there is no session. *)
Lemma session_user_None (session : option Session) :
  session_user session = None ↔ session = None.
Proof. by destruct session. Qed.

(** The role the hook derives from the user of a session. *)
Lemma useAuth_role (q : SessionQuery) (s : Session) :
  data q = Some s →
  f_role (useAuth q) = JS.or_default (role (user s)) "USER".
Proof. intros Hq. unfold useAuth; simpl. by rewrite Hq. Qed.

Lemma or_default_unprivileged (r : string) :
  r ≠ "ADMIN" → r ≠ "MANAGER" →
  JS.or_default (Some r) "USER" ≠ "ADMIN"
  ∧ JS.or_default (Some r) "USER" ≠ "MANAGER".
Proof.
  intros HA HM. simpl. destruct (JS.strict_eq r ""); [|done].
  split; discriminate.
Qed.

(** The facade only looks at the role it derived. *)
Lemma useAuth_by_role (q : SessionQuery) :
  let f := useAuth q in
  isAdmin f = JS.strict_eq (f_role f) "ADMIN"
  ∧ isEditor f = JS.strict_eq (f_role f) "MANAGER"
  ∧ canManageContent f =
      JS.strict_eq (f_role f) "ADMIN" || JS.strict_eq (f_role f) "MANAGER"
  ∧ f_hasPermission f = hasPermission (f_role f).
Proof. done. Qed.

End FacadeFacts.

(** C1: for every role and every permission string, [hasPermission] answers
    true when the role is ADMIN, whatever the string; for the two other
    roles it answers true exactly when the string is in the allow-list of
    the role, USER's being agenda:read, profile:read_own and
    profile:update_own, and MANAGER's being USER's with agenda:create,
    agenda:update and agenda:delete added. *)
Theorem hasPermission_role_model (r : UserRole) (p : string) :
  UseAuth.hasPermission (UserRole_str r) p = true
  ↔ r = ADMIN ∨ p ∈ RoleModel.allow_list r.
Proof.
  destruct r.
  - split; [by left | done].
  - change (UseAuth.hasPermission (UserRole_str MANAGER) p)
      with (JS.includes UseAuth.editorPermissions p).
    rewrite editorPermissions_allow_list. split; [by right|].
    by intros [?|?].
  - change (UseAuth.hasPermission (UserRole_str USER) p)
      with (JS.includes UseAuth.userPermissions p).
    rewrite userPermissions_allow_list. split; [by right|].
    by intros [?|?].
Qed.

(** ADMIN is granted strings outside the vocabulary too. *)
Example hasPermission_ADMIN_unknown :
  UseAuth.hasPermission "ADMIN" "users:purge" = true
  ∧ "users:purge" ∉ RoleModel.vocabulary.
Proof.
  split; [done|]. unfold RoleModel.vocabulary.
  rewrite !not_elem_of_cons. repeat split; try discriminate.
  apply not_elem_of_nil.
Qed.

(** C5: every permission [hasPermission] grants to USER it grants to
    MANAGER as well. *)
Theorem hasPermission_USER_MANAGER (p : string) :
  UseAuth.hasPermission "USER" p = true →
  UseAuth.hasPermission "MANAGER" p = true.
Proof.
  change (JS.includes UseAuth.userPermissions p = true →
          JS.includes UseAuth.editorPermissions p = true).
  rewrite !includes_elem_of. apply userPermissions_subseteq.
Qed.

Lemma hasPermission_USER_MANAGER_witness :
  UseAuth.hasPermission "USER" "profile:read_own" = true
  ∧ UseAuth.hasPermission "MANAGER" "profile:read_own" = true.
Proof.
  split; [reflexivity|].
  apply (hasPermission_USER_MANAGER "profile:read_own"). reflexivity.
Defined.

(** C4, as stated, fails: for a session of role ADMIN the facade says
    [isEditor] is false, so [isEditor] is not "MANAGER or ADMIN". *)
Lemma isEditor_not_isManagerOrAdmin :
  UseAuth.f_role (UseAuth.useAuth (query_with_role (Some "ADMIN"))) = "ADMIN"
  ∧ UseAuth.isEditor (UseAuth.useAuth (query_with_role (Some "ADMIN")))
    = false
  ∧ ¬ (UseAuth.isEditor (UseAuth.useAuth (query_with_role (Some "ADMIN")))
       = true
       ↔ UseAuth.f_role (UseAuth.useAuth (query_with_role (Some "ADMIN")))
         = "MANAGER"
         ∨ UseAuth.f_role (UseAuth.useAuth (query_with_role (Some "ADMIN")))
           = "ADMIN").
Proof.
  split; [reflexivity|]. split; [reflexivity|].
  intros [_ H]. discriminate H. by right.
Qed.

(** C4, amended: for every session, the facade's [isAdmin] is true exactly
    when the role is ADMIN, its [canManageContent] is true exactly when the
    role is MANAGER or ADMIN, and its [isEditor] is true exactly when the
    role is MANAGER. *)
Theorem facade_role_flags (q : UseAuth.SessionQuery) :
  let f := UseAuth.useAuth q in
  (UseAuth.isAdmin f = true ↔ UseAuth.f_role f = "ADMIN")
  ∧ (UseAuth.canManageContent f = true
     ↔ UseAuth.f_role f = "MANAGER" ∨ UseAuth.f_role f = "ADMIN")
  ∧ (UseAuth.isEditor f = true ↔ UseAuth.f_role f = "MANAGER").
Proof.
  intros f. subst f. destruct (useAuth_by_role q) as (-> & -> & -> & _).
  rewrite orb_true_iff, !strict_eq_true. tauto.
Qed.

(** C6: when a session exists and its user has no role field, the facade
    reports role USER, [isAdmin] and [canManageContent] are false, and
    [hasPermission] grants exactly USER's allow-list. *)
Theorem useAuth_absent_role (q : UseAuth.SessionQuery)
  (s : BetterAuth.Session) :
  UseAuth.data q = Some s →
  BetterAuth.role (BetterAuth.user s) = None →
  let f := UseAuth.useAuth q in
  UseAuth.f_role f = "USER"
  ∧ UseAuth.isAdmin f = false
  ∧ UseAuth.canManageContent f = false
  ∧ ∀ p, UseAuth.f_hasPermission f p = true ↔ p ∈ RoleModel.USER_allow_list.
Proof.
  intros Hq Hr f. subst f.
  assert (Hrole : UseAuth.f_role (UseAuth.useAuth q) = "USER").
  { rewrite (useAuth_role q s Hq), Hr. done. }
  destruct (useAuth_by_role q) as (HA & _ & HC & HP).
  rewrite HA, HC, HP, Hrole. split; [done|]. split; [done|]. split; [done|].
  intros p. rewrite hasPermission_fall_through by discriminate.
  apply userPermissions_allow_list.
Qed.

Lemma useAuth_absent_role_witness :
  let q := query_with_role None in
  let f := UseAuth.useAuth q in
  UseAuth.f_role f = "USER"
  ∧ UseAuth.isAdmin f = false
  ∧ UseAuth.canManageContent f = false
  ∧ ∀ p, UseAuth.f_hasPermission f p = true ↔ p ∈ RoleModel.USER_allow_list.
Proof.
  exact (useAuth_absent_role (query_with_role None)
           (session_with_role None)
           eq_refl eq_refl).
Defined.

(** C7: when the role field of the session's user is the empty string or
    any string other than "ADMIN" and "MANAGER", [hasPermission] grants
    exactly USER's allow-list and [isAdmin], [isEditor] and
    [canManageContent] are all false. *)
Theorem useAuth_unknown_role (q : UseAuth.SessionQuery)
  (s : BetterAuth.Session) (r : string) :
  UseAuth.data q = Some s →
  BetterAuth.role (BetterAuth.user s) = Some r →
  r ≠ "ADMIN" → r ≠ "MANAGER" →
  let f := UseAuth.useAuth q in
  (∀ p, UseAuth.f_hasPermission f p = true ↔ p ∈ RoleModel.USER_allow_list)
  ∧ UseAuth.isAdmin f = false
  ∧ UseAuth.isEditor f = false
  ∧ UseAuth.canManageContent f = false.
Proof.
  intros Hq Hr HA HM f. subst f.
  destruct (or_default_unprivileged r HA HM) as [HA' HM'].
  rewrite <- Hr, <- (useAuth_role q s Hq) in HA', HM'.
  destruct (useAuth_by_role q) as (-> & -> & -> & ->).
  apply strict_eq_false in HA' as EA, HM' as EM. rewrite EA, EM.
  split; [|done].
  intros p. rewrite hasPermission_fall_through by done.
  apply userPermissions_allow_list.
Qed.

Lemma useAuth_unknown_role_witness :
  let f := UseAuth.useAuth (query_with_role (Some "")) in
  (∀ p, UseAuth.f_hasPermission f p = true ↔ p ∈ RoleModel.USER_allow_list)
  ∧ UseAuth.isAdmin f = false
  ∧ UseAuth.isEditor f = false
  ∧ UseAuth.canManageContent f = false.
Proof.
  refine (useAuth_unknown_role (query_with_role (Some ""))
            (session_with_role (Some ""))
            "" eq_refl eq_refl _ _); discriminate.
Defined.

(** The same on a role outside the enum. *)
Example useAuth_role_GUEST :
  let f := UseAuth.useAuth (query_with_role (Some "GUEST")) in
  UseAuth.f_role f = "GUEST"
  ∧ UseAuth.f_hasPermission f "agenda:read" = true
  ∧ UseAuth.f_hasPermission f "agenda:create" = false.
Proof. done. Qed.

(* ===================================================================== *)
(** ** The route guard *)
(* ===================================================================== *)

Section RouteGuardFacts.
Import BetterAuth Middleware.

Lemma prefix_app_l (a b s : string) :
  String.prefix (a +:+ b) s = true → String.prefix a s = true.
Proof.
  revert s. induction a as [|c a IH]; intros s; [by destruct s|].
  destruct s as [|d s]; simpl; [done|].
  destruct (Ascii.ascii_dec c d); [apply IH | done].
Qed.

(** Every path the matcher selects is under the prefix the guard tests. *)
Lemma matcher_startsWith (path : string) :
  matcher path = true → JS.startsWith path "/admin" = true.
Proof.
  unfold matcher, JS.startsWith. intros [H|H]%orb_true_iff.
  - by apply strict_eq_true in H as ->.
  - by apply (prefix_app_l "/admin" "/").
Qed.

(** The location [clone] allocates holds no object yet. *)
Lemma fresh_unallocated (σ : Store) : σ !! fresh (dom σ) = None.
Proof. apply not_elem_of_dom, is_fresh. Qed.

(** The three statements of a redirect: clone the URL of the request, set
    the path of the clone, answer with the clone. *)
Lemma redirect_run (l : ref) (p : string) (σ : Store) (u : NextURL) :
  σ !! l = Some u →
  (url ← clone l; _ ← set_pathname url p; NextResponse_redirect url) σ
  = Some (redirect (href (with_pathname u p)),
          <[fresh (dom σ) := with_pathname u p]> σ).
Proof.
  intros Hl. unfold mbind, M_bind, clone. rewrite Hl. simpl.
  unfold set_pathname. rewrite lookup_insert_eq.
  unfold NextResponse_redirect. rewrite lookup_insert_eq.
  by rewrite insert_insert_eq.
Qed.

(** Allocating the clone leaves every object that was there as it was. *)
Lemma alloc_preserves (σ : Store) (v : NextURL) (l : ref) :
  is_Some (σ !! l) → <[fresh (dom σ) := v]> σ !! l = σ !! l.
Proof.
  intros [w Hw]. apply lookup_insert_ne. intros <-.
  by rewrite fresh_unallocated in Hw.
Qed.

(** The guard, as a function of the URL of the request and the session. *)
Lemma middleware_run (req : NextRequest) (session : option Session)
  (σ : Store) (u : NextURL) :
  σ !! nextUrl req = Some u →
  middleware req session σ =
    match session with
    | None =>
        Some (redirect (href (with_pathname u "/login")),
              <[fresh (dom σ) := with_pathname u "/login"]> σ)
    | Some s =>
        if JS.startsWith (pathname u) "/admin"
           && strict_ne (role (user s)) "ADMIN"
           && strict_ne (role (user s)) "MANAGER"
        then Some (redirect (href (with_pathname u "/")),
                   <[fresh (dom σ) := with_pathname u "/"]> σ)
        else Some (next, σ)
    end.
Proof.
  intros Hl. unfold middleware. destruct session as [s|]; simpl.
  - unfold mbind at 1, M_bind at 1, get_pathname. rewrite Hl.
    destruct (JS.startsWith (pathname u) "/admin"); simpl; [|done].
    destruct (strict_ne (role (user s)) "ADMIN"); simpl; [|done].
    destruct (strict_ne (role (user s)) "MANAGER"); simpl; [|done].
    by apply redirect_run.
  - by apply redirect_run.
Qed.

Lemma strict_ne_true (v : option string) (lit : string) :
  strict_ne v lit = true ↔ v ≠ Some lit.
Proof.
  unfold strict_ne, JS.opt_strict_eq. destruct v as [s|]; simpl.
  - rewrite negb_true_iff, strict_eq_false. split; congruence.
  - split; [discriminate | done].
Qed.

Lemma strict_ne_false (v : option string) (lit : string) :
  strict_ne v lit = false ↔ v = Some lit.
Proof.
  unfold strict_ne, JS.opt_strict_eq. destruct v as [s|]; simpl.
  - rewrite negb_false_iff, strict_eq_true. split; congruence.
  - split; discriminate.
Qed.

End RouteGuardFacts.

(** C2: on a request whose path the matcher selects, the guard depends on
    the path and the session only: without a session it redirects to the
    login path; with a session whose role is neither MANAGER nor ADMIN it
    redirects to the home path; in both cases the page handler is not
    reached; with a session of role MANAGER or ADMIN the request goes on
    and nothing is changed. *)
Theorem middleware_decision (req : Middleware.NextRequest)
  (session : option BetterAuth.Session)
  (σ : gmap positive Middleware.NextURL) (u : Middleware.NextURL) :
  σ !! Middleware.nextUrl req = Some u →
  Middleware.matcher (Middleware.pathname u) = true →
  ∃ r σ',
    Middleware.middleware req session σ = Some (r, σ')
    ∧ (session = None →
       r = Middleware.redirect
             (Middleware.href (Middleware.with_pathname u "/login"))
       ∧ Middleware.reaches_page_handler r = false)
    ∧ (∀ s, session = Some s →
       BetterAuth.role (BetterAuth.user s) ≠ Some "MANAGER" →
       BetterAuth.role (BetterAuth.user s) ≠ Some "ADMIN" →
       r = Middleware.redirect
             (Middleware.href (Middleware.with_pathname u "/"))
       ∧ Middleware.reaches_page_handler r = false)
    ∧ (∀ s, session = Some s →
       BetterAuth.role (BetterAuth.user s) = Some "MANAGER"
       ∨ BetterAuth.role (BetterAuth.user s) = Some "ADMIN" →
       r = Middleware.next
       ∧ Middleware.reaches_page_handler r = true
       ∧ σ' = σ).
Proof.
  intros Hl Hm. rewrite (middleware_run req session σ u Hl).
  rewrite (matcher_startsWith _ Hm). destruct session as [s|]; simpl.
  - destruct (Middleware.strict_ne (BetterAuth.role (BetterAuth.user s))
                "ADMIN") eqn:EA;
    destruct (Middleware.strict_ne (BetterAuth.role (BetterAuth.user s))
                "MANAGER") eqn:EM; simpl;
    eexists _, _; (split; [reflexivity|]);
    (split; [discriminate|]).
    + apply strict_ne_true in EA, EM.
      split; [done|]. intros s' [= <-] [H|H]; congruence.
    + apply strict_ne_false in EM.
      split; [|done]. intros s' [= <-] HM HA. congruence.
    + apply strict_ne_false in EA.
      split; [|done]. intros s' [= <-] HM HA. congruence.
    + apply strict_ne_false in EA.
      split; [|done]. intros s' [= <-] HM HA. congruence.
  - eexists _, _. split; [reflexivity|]. split; [done|].
    split; intros s; discriminate.
Qed.

Lemma middleware_decision_witness :
  admin_projects_store !! Middleware.nextUrl admin_projects_request
    = Some admin_projects_url
  ∧ Middleware.matcher (Middleware.pathname admin_projects_url) = true
  ∧ ∃ r σ',
      Middleware.middleware admin_projects_request
        (Some (session_with_role (Some "USER"))) admin_projects_store
      = Some (r, σ')
      ∧ r = Middleware.redirect "https://example.com/?page=2".
Proof.
  split; [reflexivity|]. split; [reflexivity|].
  destruct (middleware_decision admin_projects_request
              (Some (session_with_role (Some "USER")))
              admin_projects_store admin_projects_url
              eq_refl eq_refl) as (r & σ' & Hrun & _ & Huser & _).
  exists r, σ'. split; [exact Hrun|].
  apply (Huser (session_with_role (Some "USER")) eq_refl);
    discriminate.
Defined.

(** Scenario A: no session on [/admin/projects]. *)
Example middleware_unauthenticated :
  fst <$> Middleware.middleware admin_projects_request None
            admin_projects_store
  = Some (Middleware.redirect "https://example.com/login?page=2").
Proof.
  by rewrite (middleware_run _ _ _ admin_projects_url).
Qed.

(** A session of role MANAGER goes on to every admin path. *)
Example middleware_manager :
  Middleware.middleware admin_projects_request
    (Some (session_with_role (Some "MANAGER"))) admin_projects_store
  = Some (Middleware.next, admin_projects_store).
Proof.
  by rewrite (middleware_run _ _ _ admin_projects_url).
Qed.

(** Off the matcher the framework does not run the guard. *)
Lemma handle_unmatched (req : Middleware.NextRequest)
  (session : option BetterAuth.Session)
  (σ : gmap positive Middleware.NextURL) (u : Middleware.NextURL) :
  σ !! Middleware.nextUrl req = Some u →
  Middleware.handle req session σ =
    if Middleware.matcher (Middleware.pathname u)
    then Middleware.middleware req session σ
    else Some (Middleware.next, σ).
Proof.
  intros Hl. unfold Middleware.handle, mbind, Middleware.M_bind,
    Middleware.get_pathname. rewrite Hl.
  by destruct (Middleware.matcher (Middleware.pathname u)).
Qed.

(** C8: the guards keep no state.  Run twice on the same request and
    session, the route guard gives the same answer, and no URL object that
    existed before the first run is changed by it; its answer is the same
    in any two stores that hold the same URL for the request;
    [hasPermission] gives a boolean for every role string and every
    permission string, and what the facade's [hasPermission] answers
    depends on the session alone. *)
Theorem guards_deterministic_stateless :
  (∀ (req : Middleware.NextRequest) (session : option BetterAuth.Session)
     (σ : gmap positive Middleware.NextURL) (u : Middleware.NextURL),
     σ !! Middleware.nextUrl req = Some u →
     ∃ r σ1 σ2,
       Middleware.middleware req session σ = Some (r, σ1)
       ∧ Middleware.middleware req session σ1 = Some (r, σ2)
       ∧ ∀ l, is_Some (σ !! l) → σ1 !! l = σ !! l)
  ∧ (∀ (req req' : Middleware.NextRequest)
       (session : option BetterAuth.Session)
       (σ σ' : gmap positive Middleware.NextURL) (u : Middleware.NextURL),
       σ !! Middleware.nextUrl req = Some u →
       σ' !! Middleware.nextUrl req' = Some u →
       fst <$> Middleware.middleware req session σ
       = fst <$> Middleware.middleware req' session σ')
  ∧ (∀ userRole permission : string,
       UseAuth.hasPermission userRole permission = true
       ∨ UseAuth.hasPermission userRole permission = false)
  ∧ (∀ (q q' : UseAuth.SessionQuery) (permission : string),
       UseAuth.data q = UseAuth.data q' →
       UseAuth.f_hasPermission (UseAuth.useAuth q) permission
       = UseAuth.f_hasPermission (UseAuth.useAuth q') permission).
Proof.
  split; [|split; [|split]].
  - intros req session σ u Hl.
    rewrite (middleware_run req session σ u Hl).
    destruct session as [s|].
    + destruct (JS.startsWith (Middleware.pathname u) "/admin"
                && Middleware.strict_ne (BetterAuth.role (BetterAuth.user s))
                     "ADMIN"
                && Middleware.strict_ne (BetterAuth.role (BetterAuth.user s))
                     "MANAGER") eqn:E.
      * eexists _, _, _. split; [reflexivity|]. split.
        -- erewrite middleware_run;
             [rewrite E; reflexivity
             | rewrite alloc_preserves; [exact Hl | by rewrite Hl]].
        -- intros l. apply alloc_preserves.
      * eexists _, _, _. split; [reflexivity|]. split; [|done].
        rewrite (middleware_run _ _ _ u Hl), E. reflexivity.
    + eexists _, _, _. split; [reflexivity|]. split.
      * erewrite middleware_run;
          [reflexivity
          | rewrite alloc_preserves; [exact Hl | by rewrite Hl]].
      * intros l. apply alloc_preserves.
  - intros req req' session σ σ' u Hl Hl'.
    rewrite (middleware_run req session σ u Hl),
      (middleware_run req' session σ' u Hl').
    destruct session as [s|]; [|done].
    by destruct (JS.startsWith (Middleware.pathname u) "/admin"
                 && Middleware.strict_ne (BetterAuth.role (BetterAuth.user s))
                      "ADMIN"
                 && Middleware.strict_ne (BetterAuth.role (BetterAuth.user s))
                      "MANAGER").
  - intros userRole permission.
    destruct (UseAuth.hasPermission userRole permission); [by left|by right].
  - intros q q' permission Hd. unfold UseAuth.useAuth; simpl. by rewrite Hd.
Qed.

Lemma guards_deterministic_stateless_witness :
  admin_projects_store !! Middleware.nextUrl admin_projects_request
    = Some admin_projects_url
  ∧ ∃ r σ1 σ2,
      Middleware.middleware admin_projects_request None admin_projects_store
      = Some (r, σ1)
      ∧ Middleware.middleware admin_projects_request None σ1 = Some (r, σ2)
      ∧ ∀ l, is_Some (admin_projects_store !! l) →
             σ1 !! l = admin_projects_store !! l.
Proof.
  split; [reflexivity|].
  exact (proj1 guards_deterministic_stateless admin_projects_request None
           admin_projects_store admin_projects_url eq_refl).
Defined.

(* ===================================================================== *)
(** ** The server guard *)
(* ===================================================================== *)

Section ServerGuardFacts.
Import BetterAuth Api.

(** The guard never writes: whatever it answers, the table is the one it
    was given. *)
Lemma requireAdmin_reads_only (session : option Session)
  (db : gmap string Agenda) :
  (requireAdmin session db).2 = db.
Proof.
  unfold requireAdmin, requireAuth, mbind, M_bind.
  destruct session as [s|]; simpl; [|done].
  by destruct (JS.opt_strict_eq (role (user s)) "ADMIN").
Qed.

(** The guard passes exactly the sessions of role ADMIN. *)
Lemma requireAdmin_passes (session : option Session)
  (db : gmap string Agenda) (u : User) :
  (requireAdmin session db).1 = inr u
  ↔ session_user session = Some u ∧ role u = Some "ADMIN".
Proof.
  unfold requireAdmin, requireAuth, mbind, M_bind.
  destruct session as [s|]; simpl.
  - destruct (role (user s)) as [r|] eqn:Er; simpl.
    + destruct (JS.strict_eq r "ADMIN") eqn:E; simpl.
      * apply strict_eq_true in E as ->. split.
        -- intros [= <-]. by rewrite Er.
        -- by intros [[= <-] _].
      * apply strict_eq_false in E. split; [done|].
        intros [[= <-] H]. congruence.
    + split; [done|]. intros [[= <-] H]. congruence.
  - split; [done | by intros [? _]].
Qed.

Lemma requireAdmin_fails (session : option Session)
  (db : gmap string Agenda) :
  (∀ s, session = Some s → role (user s) ≠ Some "ADMIN") →
  requireAdmin session db = (inl Unauthorized, db).
Proof.
  intros Hs. unfold requireAdmin, requireAuth, mbind, M_bind.
  destruct session as [s|]; simpl; [|done].
  specialize (Hs s eq_refl).
  destruct (role (user s)) as [r|]; simpl; [|done].
  destruct (JS.strict_eq r "ADMIN") eqn:E; [|done].
  apply strict_eq_true in E as ->. done.
Qed.

End ServerGuardFacts.

(** C3: when the caller of the handler guarded by [requireAdmin] has no
    session or a session whose role is not ADMIN (MANAGER for one), the
    guard fails with the Unauthorized condition, the handler answers 401
    with the error Unauthorized, and the table is exactly what it was: the
    deletion is not run. *)
Theorem DELETE_unauthorized (session : option BetterAuth.Session)
  (id : string) (db : gmap string Api.Agenda) :
  (∀ s, session = Some s →
        BetterAuth.role (BetterAuth.user s) ≠ Some "ADMIN") →
  Api.requireAdmin session db = (inl Api.Unauthorized, db)
  ∧ Api.DELETE session id db
    = (inr (Api.mkResponse 401 (Api.body_error "Unauthorized")), db).
Proof.
  intros Hs. pose proof (requireAdmin_fails session db Hs) as Hg.
  split; [exact Hg|].
  unfold Api.DELETE, Api.try_catch.
  unfold mbind at 1, Api.M_bind at 1. by rewrite Hg.
Qed.

Lemma DELETE_unauthorized_witness :
  (∀ s, Some (session_with_role (Some "MANAGER")) = Some s →
        BetterAuth.role (BetterAuth.user s) ≠ Some "ADMIN")
  ∧ Api.DELETE (Some (session_with_role (Some "MANAGER"))) "a1" agenda_db
    = (inr (Api.mkResponse 401 (Api.body_error "Unauthorized")), agenda_db).
Proof.
  assert (H : ∀ s, Some (session_with_role (Some "MANAGER")) = Some s →
                   BetterAuth.role (BetterAuth.user s) ≠ Some "ADMIN").
  { intros s [= <-]. discriminate. }
  split; [exact H|].
  exact (proj2 (DELETE_unauthorized
                  (Some (session_with_role (Some "MANAGER")))
                  "a1" agenda_db H)).
Defined.

(** With role ADMIN the same call deletes the record. *)
Example DELETE_admin :
  Api.DELETE (Some (session_with_role (Some "ADMIN"))) "a1" agenda_db
  = (inr (Api.mkResponse 200 (Api.body_success true)), delete "a1" agenda_db).
Proof. reflexivity. Qed.

(* ===================================================================== *)
(** ** The Project table *)
(* ===================================================================== *)

Section ProjectTableFacts.
Import Migration ProjectModel.

(** What the column constraints of the table say about a row they accept. *)
Lemma row_accepts_project_record (row : Row) :
  row_accepts Project row = true → project_record row.
Proof.
  intros H.
  destruct row as [|v1 [|v2 [|v3 [|v4 [|v5 [|v6 [|v7 [|v8 [|v9 [|v10 rest]]]]]]]]]];
    cbn [row_accepts Project] in H; rewrite ?andb_true_iff in H;
    try (by exfalso; intuition discriminate).
  destruct H as (H1 & H2 & H3 & H4 & H5 & H6 & H7 & H8 & H9 & _).
  destruct v1; try discriminate H1. destruct v2; try discriminate H2.
  destruct v3; try discriminate H3. destruct v4; try discriminate H4.
  destruct v7; try discriminate H7. destruct v8; try discriminate H8.
  destruct v9; try discriminate H9.
  destruct v5; try discriminate H5; destruct v6; try discriminate H6;
    unfold project_record, field; simpl; naive_solver.
Qed.

(** An INSERT that goes through appends one row, built from the
    assignments and the defaults, that the constraints accept. *)
Lemma INSERT_Some (now : Z) (assignments : list (string * Value))
  (table table' : list Row) :
  INSERT now assignments table = Some table' →
  table' = table ++ [map (inserted_value now assignments) Project]
  ∧ row_accepts Project (map (inserted_value now assignments) Project) = true.
Proof.
  unfold INSERT. cbv zeta.
  destruct (forallb _ assignments); cbn [andb]; [|done].
  destruct (row_accepts Project
              (map (inserted_value now assignments) Project));
    cbn [andb]; [|done].
  destruct (negb _); [|done]. by intros [= <-].
Qed.

Lemma UPDATE_Some (id : string) (assignments : list (string * Value))
  (table table' : list Row) :
  UPDATE id assignments table = Some table' →
  forallb (row_accepts Project) table' = true.
Proof.
  unfold UPDATE. cbv zeta.
  destruct (forallb _ assignments); cbn [andb]; [|done].
  destruct (forallb (row_accepts Project) _) eqn:E; cbn [andb]; [|done].
  destruct (forallb _ table); [|done]. by intros [= <-].
Qed.

(** The column constraints hold of every row of a persisted table. *)
Lemma persisted_rows_accepted (table : list Row) :
  persisted table → Forall (λ r, row_accepts Project r = true) table.
Proof.
  induction 1 as [|now assignments table table' _ IH Hins
                  |id assignments table table' _ IH Hupd
                  |id table _ IH].
  - constructor.
  - apply INSERT_Some in Hins as [-> Hrow].
    apply Forall_app. split; [done|]. by constructor.
  - apply UPDATE_Some in Hupd.
    apply Forall_forall. intros r Hr.
    rewrite forallb_forall in Hupd. apply Hupd.
    by apply list_elem_of_In.
  - unfold DELETE. apply Forall_forall. intros r [_ Hr]%list_elem_of_filter.
    rewrite Forall_forall in IH. by apply IH.
Qed.

End ProjectTableFacts.

(** C9: every row of a persisted Project table has a non-null id, title,
    description and imageUrl, a link that is a text or NULL, an order that
    is an integer or NULL, createdAt and updatedAt timestamps and a boolean
    isActive; a row inserted without naming isActive gets isActive = true;
    and rows with a NULL link and a NULL order do get persisted. *)
Theorem Project_records :
  (∀ (table : list Migration.Row) (row : Migration.Row),
     Migration.persisted table → row ∈ table →
     ProjectModel.project_record row)
  ∧ (∀ (now : Z) (assignments : list (string * Migration.Value))
       (table table' : list Migration.Row),
       Migration.INSERT now assignments table = Some table' →
       Migration.assigned "isActive" assignments = None →
       ∃ row, table' = table ++ [row]
              ∧ Migration.field "isActive" row
                = Some (Migration.boolean true))
  ∧ (∃ (table : list Migration.Row) (row : Migration.Row),
       Migration.persisted table ∧ row ∈ table
       ∧ Migration.field "link" row = Some Migration.NULL
       ∧ Migration.field "order" row = Some Migration.NULL).
Proof.
  split; [|split].
  - intros table row Hp Hrow.
    apply persisted_rows_accepted in Hp. rewrite Forall_forall in Hp.
    by apply row_accepts_project_record, Hp.
  - intros now assignments table table' Hins Hnone.
    apply INSERT_Some in Hins as [-> _]. eexists. split; [reflexivity|].
    unfold Migration.field. cbn [map Migration.Project Migration.field_of
      Migration.col_name String.eqb Ascii.eqb Bool.eqb].
    unfold Migration.inserted_value. cbn [Migration.col_name].
    by rewrite Hnone.
  - exists [minimal_project_row], minimal_project_row.
    split; [|split; [apply list_elem_of_singleton|]; done].
    apply (Migration.persisted_insert 1763000000 minimal_project []);
      [apply Migration.persisted_empty | reflexivity].
Qed.

Lemma Project_records_witness :
  Migration.persisted [minimal_project_row]
  ∧ minimal_project_row ∈ [minimal_project_row]
  ∧ ProjectModel.project_record minimal_project_row.
Proof.
  assert (Hp : Migration.persisted [minimal_project_row]).
  { exact (Migration.persisted_insert 1763000000 minimal_project []
             [minimal_project_row] Migration.persisted_empty eq_refl). }
  assert (Hin : minimal_project_row ∈ [minimal_project_row]).
  { apply list_elem_of_here. }
  split; [exact Hp|]. split; [exact Hin|].
  exact (proj1 Project_records [minimal_project_row] minimal_project_row
           Hp Hin).
Defined.

(** An INSERT that leaves out a required column is rejected. *)
Example INSERT_without_title :
  Migration.INSERT 1763000000
    [ ("id", Migration.text "p2");
      ("description", Migration.text "");
      ("imageUrl", Migration.text "/uploads/p2.png");
      ("updatedAt", Migration.timestamp 1763000000) ] []
  = None.
Proof. reflexivity. Qed.

(* ===================================================================== *)
(** ** The project form *)
(* ===================================================================== *)

Section ProjectFormFacts.
Import ProjectForm.

Lemma run_check_nil (p s : string) (c : StringCheck) :
  run_check p s c = [] ↔ check_holds s c.
Proof.
  destruct c as [n msg|n msg]; simpl.
  - destruct (Nat.ltb_spec (JS.length s) n); split; try done; lia.
  - destruct (Nat.ltb_spec n (JS.length s)); split; try done; lia.
Qed.

(** A string schema reports nothing exactly on the strings that pass all
    of its checks. *)
Lemma z_string_nil (checks : list StringCheck) (p : string) (v : JsValue) :
  z_string checks p v = [] ↔ ∃ s, v = str s ∧ Forall (check_holds s) checks.
Proof.
  destruct v as [| |s|b|z]; simpl;
    try (split; [discriminate | by intros (? & ? & _)]).
  split.
  - intros H. exists s. split; [done|].
    induction checks as [|c checks IH]; [constructor|].
    simpl in H. apply app_eq_nil in H as [Hc H].
    constructor; [exact (proj1 (run_check_nil p s c) Hc) | by apply IH].
  - intros (s' & [= <-] & H).
    induction H as [|c checks Hc _ IH]; [done|].
    simpl. apply (run_check_nil p) in Hc. by rewrite Hc, IH.
Qed.

Lemma z_optional_nil (schema : string → JsValue → list Issue)
  (p : string) (v : JsValue) :
  z_optional schema p v = [] ↔ v = undefined ∨ schema p v = [].
Proof.
  destruct v; simpl; split; try tauto; by intros [?|?].
Qed.

Lemma z_boolean_nil (p : string) (v : JsValue) :
  z_boolean p v = [] ↔ ∃ b, v = boolean b.
Proof.
  destruct v; simpl; split; try discriminate; try (by intros [? ?]).
  by eexists.
Qed.

(** The inputs the schema accepts. *)
Lemma accepts_iff (input : FormInput) :
  accepts input = true ↔
  ∃ t i d b,
    title input = str t ∧ (3 ≤ JS.length t ≤ 100)%nat
    ∧ imageUrl input = str i ∧ (1 ≤ JS.length i)%nat
    ∧ description input = str d ∧ (JS.length d ≤ 500)%nat
    ∧ isActive input = boolean b
    ∧ (link input = undefined ∨ ∃ l, link input = str l).
Proof.
  unfold accepts.
  transitivity (formSchema input = []).
  { destruct (formSchema input); split; done. }
  unfold formSchema. rewrite !app_nil.
  rewrite !z_string_nil, z_optional_nil, z_boolean_nil, z_string_nil.
  split.
  - intros ((t & Ht & Hct) & (i & Hi & Hci) & Hl & (d & Hd & Hcd) & (b & Hb)).
    exists t, i, d, b.
    inversion Hct as [|? ? _ Hct']; inversion Hct' as [|? ? H3 Hct''];
      inversion Hct'' as [|? ? H100 _]; subst.
    inversion Hci as [|? ? H1 _]; inversion Hcd as [|? ? H500 _]; subst.
    simpl in *. repeat split; try done.
    destruct Hl as [Hl|(l & Hl & _)]; [by left | right; by exists l].
  - intros (t & i & d & b & Ht & [H3 H100] & Hi & H1 & Hd & H500 & Hb & Hl).
    split; [|split; [|split; [|split]]].
    + exists t. split; [done|].
      repeat (apply Forall_cons_2; [simpl; lia|]). apply Forall_nil_2.
    + exists i. split; [done|].
      repeat (apply Forall_cons_2; [simpl; lia|]). apply Forall_nil_2.
    + destruct Hl as [Hl|[l Hl]]; [by left|right].
      exists l. split; [done | apply Forall_nil_2].
    + exists d. split; [done|].
      repeat (apply Forall_cons_2; [simpl; lia|]). apply Forall_nil_2.
    + by exists b.
Qed.

End ProjectFormFacts.

(** C10: the form's schema accepts an input only if its title has between
    3 and 100 characters, its imageUrl is not empty and its description has
    at most 500 characters; and an input that meets these, with a boolean
    isActive, is accepted with the link field left out. *)
Theorem formSchema_accepts :
  (∀ input : ProjectForm.FormInput,
     ProjectForm.accepts input = true →
     ∃ t i d,
       ProjectForm.title input = ProjectForm.str t
       ∧ (3 ≤ JS.length t ≤ 100)%nat
       ∧ ProjectForm.imageUrl input = ProjectForm.str i
       ∧ (1 ≤ JS.length i)%nat
       ∧ ProjectForm.description input = ProjectForm.str d
       ∧ (JS.length d ≤ 500)%nat)
  ∧ (∀ (t i d : string) (b : bool),
       (3 ≤ JS.length t ≤ 100)%nat → (1 ≤ JS.length i)%nat → (JS.length d ≤ 500)%nat →
       ProjectForm.accepts
         (ProjectForm.mkInput (ProjectForm.str t) (ProjectForm.str i)
            ProjectForm.undefined (ProjectForm.str d) (ProjectForm.boolean b))
       = true).
Proof.
  split.
  - intros input (t & i & d & b & Ht & Hlt & Hi & Hli & Hd & Hld & _)%accepts_iff.
    by exists t, i, d.
  - intros t i d b Ht Hi Hd. apply accepts_iff.
    exists t, i, d, b. simpl. repeat split; try done; try lia. by left.
Qed.

Lemma formSchema_accepts_witness :
  ProjectForm.accepts short_form = true
  ∧ ∃ t i d,
      ProjectForm.title short_form = ProjectForm.str t
      ∧ (3 ≤ JS.length t ≤ 100)%nat
      ∧ ProjectForm.imageUrl short_form = ProjectForm.str i
      ∧ (1 ≤ JS.length i)%nat
      ∧ ProjectForm.description short_form = ProjectForm.str d
      ∧ (JS.length d ≤ 500)%nat.
Proof.
  assert (H : ProjectForm.accepts short_form = true).
  { apply (proj2 formSchema_accepts "CMS" "/a.png" "" true); simpl; lia. }
  split; [exact H|].
  exact (proj1 formSchema_accepts short_form H).
Defined.

(** A two-letter title is turned down with the message of the second
    check; an empty one with the messages of the first two. *)
Example formSchema_short_title :
  ProjectForm.code <$>
    ProjectForm.formSchema
      (ProjectForm.mkInput (ProjectForm.str "ab") (ProjectForm.str "/a.png")
         ProjectForm.undefined (ProjectForm.str "") (ProjectForm.boolean true))
  = [ProjectForm.too_small]
  ∧ length
      (ProjectForm.formSchema
         (ProjectForm.mkInput (ProjectForm.str "") (ProjectForm.str "/a.png")
            ProjectForm.undefined (ProjectForm.str "")
            (ProjectForm.boolean true)))
    = 2.
Proof. split; reflexivity. Qed.

(* ===================================================================== *)
(** ** The facade and the route guard against each other *)
(* ===================================================================== *)

Section CrossChecks.
Import BetterAuth UseAuth.

(** Falling back to a default that is not the literal does not change a
    comparison with a non-empty literal. *)
Lemma or_default_strict_eq (v : option string) (d lit : string) :
  lit ≠ "" → d ≠ lit →
  JS.strict_eq (JS.or_default v d) lit = JS.opt_strict_eq v lit.
Proof.
  intros Hlit Hd. destruct v as [s|]; simpl.
  - destruct (JS.strict_eq s "") eqn:E; [|done].
    apply strict_eq_true in E as ->.
    transitivity false; [by apply strict_eq_false|].
    symmetry. apply strict_eq_false. congruence.
  - by apply strict_eq_false.
Qed.

(** The flags of the facade, read off the role field of the session. *)
Lemma facade_flags_by_session (q : SessionQuery) :
  let r := user_role (session_user (data q)) in
  isAdmin (useAuth q) = JS.opt_strict_eq r "ADMIN"
  ∧ isEditor (useAuth q) = JS.opt_strict_eq r "MANAGER"
  ∧ canManageContent (useAuth q)
    = JS.opt_strict_eq r "ADMIN" || JS.opt_strict_eq r "MANAGER".
Proof.
  unfold useAuth; simpl.
  by rewrite !or_default_strict_eq by discriminate.
Qed.

Lemma additions_not_userPermissions (p : string) :
  p ∈ RoleModel.MANAGER_additions → JS.includes userPermissions p = false.
Proof.
  unfold RoleModel.MANAGER_additions.
  rewrite !elem_of_cons, elem_of_nil. by intros [->|[->|[->|[]]]].
Qed.

Lemma additions_editorPermissions (p : string) :
  p ∈ RoleModel.MANAGER_additions → JS.includes editorPermissions p = true.
Proof.
  unfold RoleModel.MANAGER_additions.
  rewrite !elem_of_cons, elem_of_nil. by intros [->|[->|[->|[]]]].
Qed.

Lemma editorPermissions_vocabulary (p : string) :
  JS.includes editorPermissions p = true ↔ p ∈ RoleModel.vocabulary.
Proof. apply includes_elem_of. Qed.

End CrossChecks.

(** X1: without a session the facade says [isAuthenticated] is false, and
    yet it reports role USER and its [hasPermission] grants USER's
    allow-list. *)
Theorem useAuth_no_session (q : UseAuth.SessionQuery) :
  UseAuth.data q = None →
  UseAuth.isAuthenticated (UseAuth.useAuth q) = false
  ∧ UseAuth.f_user (UseAuth.useAuth q) = None
  ∧ UseAuth.f_role (UseAuth.useAuth q) = "USER"
  ∧ UseAuth.isAdmin (UseAuth.useAuth q) = false
  ∧ UseAuth.isEditor (UseAuth.useAuth q) = false
  ∧ UseAuth.canManageContent (UseAuth.useAuth q) = false
  ∧ ∀ p, UseAuth.f_hasPermission (UseAuth.useAuth q) p = true
         ↔ p ∈ RoleModel.USER_allow_list.
Proof.
  intros Hq. unfold UseAuth.useAuth. rewrite Hq. simpl.
  repeat (split; [reflexivity|]).
  intros p. apply userPermissions_allow_list.
Qed.

Lemma useAuth_no_session_witness :
  UseAuth.isAuthenticated (UseAuth.useAuth (UseAuth.mkQuery None true))
    = false
  ∧ UseAuth.f_hasPermission (UseAuth.useAuth (UseAuth.mkQuery None true))
      "agenda:read" = true.
Proof.
  destruct (useAuth_no_session (UseAuth.mkQuery None true) eq_refl)
    as (H1 & _ & _ & _ & _ & _ & H7).
  split; [exact H1|]. apply H7.
  unfold RoleModel.USER_allow_list. apply list_elem_of_here.
Defined.

(** X2: on each of the three content permissions (agenda:create,
    agenda:update, agenda:delete) the facade's [hasPermission] and its
    [canManageContent] flag say the same, for every session. *)
Theorem content_permissions_agree (q : UseAuth.SessionQuery) (p : string) :
  p ∈ RoleModel.MANAGER_additions →
  UseAuth.f_hasPermission (UseAuth.useAuth q) p
  = UseAuth.canManageContent (UseAuth.useAuth q).
Proof.
  intros Hp. destruct (useAuth_by_role q) as (_ & _ & -> & ->).
  unfold UseAuth.hasPermission.
  destruct (JS.strict_eq _ "ADMIN"); [done|].
  destruct (JS.strict_eq _ "MANAGER"); simpl.
  - by apply additions_editorPermissions.
  - by apply additions_not_userPermissions.
Qed.

Lemma content_permissions_agree_witness :
  "agenda:update" ∈ RoleModel.MANAGER_additions
  ∧ UseAuth.f_hasPermission
      (UseAuth.useAuth (query_with_role (Some "MANAGER"))) "agenda:update"
    = UseAuth.canManageContent
        (UseAuth.useAuth (query_with_role (Some "MANAGER"))).
Proof.
  assert (H : "agenda:update" ∈ RoleModel.MANAGER_additions).
  { unfold RoleModel.MANAGER_additions.
    apply list_elem_of_further, list_elem_of_here. }
  split; [exact H|].
  exact (content_permissions_agree (query_with_role (Some "MANAGER"))
           "agenda:update" H).
Defined.

(** X3: whatever the session, a permission string outside the six known
    ones is granted only when [isAdmin] is true. *)
Theorem hasPermission_within_vocabulary (q : UseAuth.SessionQuery)
  (p : string) :
  UseAuth.f_hasPermission (UseAuth.useAuth q) p = true →
  UseAuth.isAdmin (UseAuth.useAuth q) = true ∨ p ∈ RoleModel.vocabulary.
Proof.
  destruct (useAuth_by_role q) as (-> & _ & _ & ->).
  unfold UseAuth.hasPermission.
  destruct (JS.strict_eq _ "ADMIN"); [by left|].
  intros H. right. apply editorPermissions_vocabulary.
  destruct (JS.strict_eq _ "MANAGER"); [done|].
  apply includes_elem_of, userPermissions_subseteq.
  by apply includes_elem_of.
Qed.

Lemma hasPermission_within_vocabulary_witness :
  UseAuth.f_hasPermission (UseAuth.useAuth (query_with_role (Some "USER")))
    "profile:read_own" = true
  ∧ (UseAuth.isAdmin (UseAuth.useAuth (query_with_role (Some "USER")))
     = true
     ∨ "profile:read_own" ∈ RoleModel.vocabulary).
Proof.
  split; [reflexivity|].
  exact (hasPermission_within_vocabulary (query_with_role (Some "USER"))
           "profile:read_own" eq_refl).
Defined.

(** X4: on a path the matcher selects, the route guard lets a request go on
    to the page exactly when the facade built from the same session says
    [canManageContent]. *)
Theorem middleware_agrees_with_facade (req : Middleware.NextRequest)
  (session : option BetterAuth.Session) (pending : bool)
  (σ : gmap positive Middleware.NextURL) (u : Middleware.NextURL) :
  σ !! Middleware.nextUrl req = Some u →
  Middleware.matcher (Middleware.pathname u) = true →
  ∃ r σ',
    Middleware.middleware req session σ = Some (r, σ')
    ∧ Middleware.reaches_page_handler r
      = UseAuth.canManageContent
          (UseAuth.useAuth (UseAuth.mkQuery session pending)).
Proof.
  intros Hl Hm. rewrite (middleware_run req session σ u Hl).
  rewrite (matcher_startsWith _ Hm).
  destruct (facade_flags_by_session (UseAuth.mkQuery session pending))
    as (_ & _ & ->).
  destruct session as [s|]; simpl; [|by eexists _, _].
  unfold Middleware.strict_ne.
  destruct (JS.opt_strict_eq _ "ADMIN"), (JS.opt_strict_eq _ "MANAGER");
    simpl; by eexists _, _.
Qed.

Lemma middleware_agrees_with_facade_witness :
  admin_projects_store !! Middleware.nextUrl admin_projects_request
    = Some admin_projects_url
  ∧ Middleware.matcher (Middleware.pathname admin_projects_url) = true
  ∧ ∃ r σ',
      Middleware.middleware admin_projects_request
        (Some (session_with_role (Some "MANAGER"))) admin_projects_store
      = Some (r, σ')
      ∧ Middleware.reaches_page_handler r
        = UseAuth.canManageContent
            (UseAuth.useAuth (query_with_role (Some "MANAGER"))).
Proof.
  split; [reflexivity|]. split; [reflexivity|].
  exact (middleware_agrees_with_facade admin_projects_request
           (Some (session_with_role (Some "MANAGER"))) false
           admin_projects_store admin_projects_url eq_refl eq_refl).
Defined.

(** X5: a redirect of the guard goes to the origin of the request, to the
    path /login or /, with the query string of the request; and a request
    for that path is outside the matcher, so the framework lets it through
    whatever its session: the guard does not redirect in a loop. *)
Theorem redirect_not_intercepted (req : Middleware.NextRequest)
  (session : option BetterAuth.Session)
  (σ σ' : gmap positive Middleware.NextURL) (u : Middleware.NextURL)
  (location : string) :
  σ !! Middleware.nextUrl req = Some u →
  Middleware.middleware req session σ
    = Some (Middleware.redirect location, σ') →
  ∃ target,
    (target = "/login" ∨ target = "/")
    ∧ location
      = (Middleware.origin u +:+ target +:+ Middleware.search u)
    ∧ ∀ (req' : Middleware.NextRequest)
        (session' : option BetterAuth.Session)
        (τ : gmap positive Middleware.NextURL),
        τ !! Middleware.nextUrl req'
          = Some (Middleware.with_pathname u target) →
        Middleware.handle req' session' τ = Some (Middleware.next, τ).
Proof.
  intros Hl. rewrite (middleware_run req session σ u Hl).
  assert (Hfollow : ∀ target, target = "/login" ∨ target = "/" →
    ∀ req' session' (τ : gmap positive Middleware.NextURL),
      τ !! Middleware.nextUrl req' = Some (Middleware.with_pathname u target) →
      Middleware.handle req' session' τ = Some (Middleware.next, τ)).
  { intros target Ht req' session' τ Hτ.
    rewrite (handle_unmatched req' session' τ _ Hτ).
    by destruct Ht as [->| ->]. }
  destruct session as [s|].
  - destruct (_ && _); [|done]. intros [= <- _].
    exists "/". split; [by right|]. split; [done|]. apply Hfollow. by right.
  - intros [= <- _].
    exists "/login". split; [by left|]. split; [done|].
    apply Hfollow. by left.
Qed.

Lemma redirect_not_intercepted_witness :
  admin_projects_store !! Middleware.nextUrl admin_projects_request
    = Some admin_projects_url
  ∧ ∃ σ', Middleware.middleware admin_projects_request None
            admin_projects_store
          = Some (Middleware.redirect "https://example.com/login?page=2", σ')
        ∧ ∃ target, (target = "/login" ∨ target = "/")
            ∧ "https://example.com/login?page=2"
              = (Middleware.origin admin_projects_url +:+ target
                 +:+ Middleware.search admin_projects_url).
Proof.
  split; [reflexivity|].
  pose proof (middleware_run admin_projects_request None
                admin_projects_store admin_projects_url eq_refl) as Hrun.
  eexists. split; [exact Hrun|].
  destruct (redirect_not_intercepted admin_projects_request None
              admin_projects_store _ admin_projects_url
              "https://example.com/login?page=2" eq_refl Hrun)
    as (target & Ht & Hloc & _).
  by exists target.
Defined.

(* ===================================================================== *)
(** ** The session the server hands out *)
(* ===================================================================== *)

Section CustomSessionFacts.
Import BetterAuth AuthConfig.

(** The role of a custom session, by the row of the user. *)
Lemma customSession_role_eq (users : gmap string (option string))
  (u : User) :
  role (user (customSession users u))
  = Some (JS.or_default (dbUser_role (users !! uid u)) "USER").
Proof. done. Qed.

Lemma or_default_nonempty (v : option string) (d : string) :
  d ≠ "" → JS.or_default v d ≠ "".
Proof.
  intros Hd. destruct v as [s|]; simpl; [|done].
  destruct (JS.strict_eq s "") eqn:E; [done|]. by apply strict_eq_false.
Qed.

Lemma or_default_idem (v : option string) (d : string) :
  d ≠ "" → JS.or_default (Some (JS.or_default v d)) d = JS.or_default v d.
Proof.
  intros Hd. simpl.
  pose proof (or_default_nonempty v d Hd) as H.
  apply strict_eq_false in H. by rewrite H.
Qed.

Lemma or_default_cases (v : option string) (d : string) :
  (v = Some (JS.or_default v d) ∧ JS.or_default v d ≠ "")
  ∨ ((v = None ∨ v = Some "") ∧ JS.or_default v d = d).
Proof.
  destruct v as [s|]; simpl; [|right; split; [by left | done]].
  destruct (JS.strict_eq s "") eqn:E.
  - apply strict_eq_true in E as ->. right. split; [by right | done].
  - left. split; [done|]. by apply strict_eq_false.
Qed.

End CustomSessionFacts.

(** X6: the role of a session built by [customSession] is never absent and
    never empty: it is the role stored for the user, and "USER" when the
    user has no row or no stored role; the role claimed by the resolved
    user plays no part; and the client facade reports that very role. *)
Theorem customSession_role (users : gmap string (option string))
  (u : BetterAuth.User) (pending : bool) :
  ∃ r,
    BetterAuth.role (BetterAuth.user (AuthConfig.customSession users u))
      = Some r
    ∧ r ≠ ""
    ∧ (users !! BetterAuth.uid u = Some (Some r)
       ∨ (r = "USER"
          ∧ (users !! BetterAuth.uid u = None
             ∨ users !! BetterAuth.uid u = Some None
             ∨ users !! BetterAuth.uid u = Some (Some ""))))
    ∧ UseAuth.f_role
        (UseAuth.useAuth
           (UseAuth.mkQuery (Some (AuthConfig.customSession users u))
              pending))
      = r.
Proof.
  exists (JS.or_default (AuthConfig.dbUser_role (users !! BetterAuth.uid u))
            "USER").
  split; [apply customSession_role_eq|].
  split; [by apply or_default_nonempty|]. split.
  - destruct (or_default_cases
                (AuthConfig.dbUser_role (users !! BetterAuth.uid u)) "USER")
      as [[H _]|[H ->]].
    + left. destruct (users !! BetterAuth.uid u) as [row|]; [|done].
      simpl in *. by f_equal.
    + right. split; [done|].
      destruct (users !! BetterAuth.uid u) as [row|]; [|by left].
      simpl in H. destruct H as [->| ->]; [right; by left | right; by right].
  - unfold UseAuth.useAuth. simpl. by apply or_default_idem.
Qed.

(** X7: a user without a row in the user table, or without a stored role,
    is sent to the home path by the route guard on every path the matcher
    selects, whatever role the resolved user claims. *)
Theorem customSession_unknown_user_redirected
  (users : gmap string (option string)) (u : BetterAuth.User)
  (req : Middleware.NextRequest)
  (σ : gmap positive Middleware.NextURL) (url : Middleware.NextURL) :
  σ !! Middleware.nextUrl req = Some url →
  Middleware.matcher (Middleware.pathname url) = true →
  AuthConfig.dbUser_role (users !! BetterAuth.uid u) = None →
  ∃ σ',
    Middleware.middleware req
      (AuthConfig.getSession users (Some u)) σ
    = Some (Middleware.redirect
              (Middleware.origin url +:+ "/" +:+ Middleware.search url),
            σ').
Proof.
  intros Hl Hm Hrow.
  rewrite (middleware_run req _ σ url Hl). simpl.
  rewrite (matcher_startsWith _ Hm).
  unfold AuthConfig.findUnique_role. rewrite Hrow. simpl.
  by eexists.
Qed.

Lemma customSession_unknown_user_redirected_witness :
  admin_projects_store !! Middleware.nextUrl admin_projects_request
    = Some admin_projects_url
  ∧ Middleware.matcher (Middleware.pathname admin_projects_url) = true
  ∧ AuthConfig.dbUser_role (user_table !! "u3") = None
  ∧ ∃ σ',
      Middleware.middleware admin_projects_request
        (AuthConfig.getSession user_table (Some (resolved_user "u3")))
        admin_projects_store
      = Some (Middleware.redirect "https://example.com/?page=2", σ').
Proof.
  split; [reflexivity|]. split; [reflexivity|]. split; [reflexivity|].
  exact (customSession_unknown_user_redirected user_table
           (resolved_user "u3") admin_projects_request admin_projects_store
           admin_projects_url eq_refl eq_refl eq_refl).
Defined.

(** A stored role decides, not the claimed one. *)
Example customSession_stored_role :
  BetterAuth.role
    (BetterAuth.user (AuthConfig.customSession user_table (resolved_user "u2")))
  = Some "MANAGER".
Proof. reflexivity. Qed.

(* ===================================================================== *)
(** ** The agenda handlers *)
(* ===================================================================== *)

Section AgendaHandlerFacts.
Import BetterAuth Api AgendaApi.

(** What the admin guard answers, by the session. *)
Lemma requireAdmin_run (session : option Session) (db : gmap string Agenda) :
  requireAdmin session db =
    match session with
    | Some s =>
        if JS.opt_strict_eq (role (user s)) "ADMIN"
        then (inr (user s), db)
        else (inl Unauthorized, db)
    | None => (inl Unauthorized, db)
    end.
Proof.
  unfold requireAdmin, requireAuth, mbind, M_bind.
  destruct session as [s|]; simpl; [|done].
  by destruct (JS.opt_strict_eq (role (user s)) "ADMIN").
Qed.

Lemma requireManagerOrAdmin_run (session : option Session)
  (db : gmap string Agenda) :
  requireManagerOrAdmin session db =
    match session with
    | Some s =>
        if JS.opt_strict_eq (role (user s)) "ADMIN"
           || JS.opt_strict_eq (role (user s)) "MANAGER"
        then (inr (user s), db)
        else (inl Unauthorized, db)
    | None => (inl Unauthorized, db)
    end.
Proof.
  unfold requireManagerOrAdmin, requireAuth, mbind, M_bind.
  destruct session as [s|]; simpl; [|done].
  by destruct (_ || _).
Qed.

(** The [DELETE] handler, by the session and the table. *)
Lemma DELETE_run (session : option Session) (id : string)
  (db : gmap string Agenda) :
  DELETE session id db =
    match requireAdmin session db, db !! id with
    | (inr _, _), Some _ =>
        (inr (mkResponse 200 (body_success true)), delete id db)
    | _, _ => (inr (mkResponse 401 (body_error "Unauthorized")), db)
    end.
Proof.
  unfold DELETE, Api.try_catch. unfold mbind at 1, M_bind at 1.
  rewrite requireAdmin_run.
  destruct session as [s|]; [|done].
  destruct (JS.opt_strict_eq (role (user s)) "ADMIN"); [|done].
  unfold mbind, M_bind, prisma_agenda_delete.
  by destruct (db !! id).
Qed.

Lemma opt_strict_eq_true (v : option string) (lit : string) :
  JS.opt_strict_eq v lit = true ↔ v = Some lit.
Proof.
  destruct v as [s|]; simpl; [|done].
  rewrite strict_eq_true. split; congruence.
Qed.

(** The [PUT] handler, by the session, the body and the table. *)
Lemma PUT_run (session : option Session) (id : string)
  (body : RequestBody) (db : gmap string Agenda) :
  PUT session id body db =
    match requireManagerOrAdmin session db, body, db !! id with
    | (inr _, _), json_data d, Some a =>
        let id' := default id (d_id d) in
        if bool_decide (id' ≠ id) && bool_decide (is_Some (db !! id'))
        then (inr (mkPutResponse 401 (put_error "Unauthorized")), db)
        else (inr (mkPutResponse 200 (put_agenda id' (apply_data d a))),
              <[id' := apply_data d a]> (delete id db))
    | _, _, _ => (inr (mkPutResponse 401 (put_error "Unauthorized")), db)
    end.
Proof.
  unfold PUT, AgendaApi.try_catch. unfold mbind at 1, H_bind at 1, run_guard.
  rewrite requireManagerOrAdmin_run.
  destruct session as [s|]; [|done].
  destruct (_ || _); [|by destruct body].
  unfold mbind, H_bind, request_json, prisma_agenda_update.
  destruct body as [| |d]; try done. simpl.
  destruct (db !! id) as [a|]; [|done]. simpl.
  by destruct (_ && _).
Qed.

End AgendaHandlerFacts.

(** X8: a [DELETE] for an id that has no record is answered 401 with the
    error Unauthorized, for every session, ADMIN's included, and the table
    stays as it was. *)
Theorem DELETE_missing_record (session : option BetterAuth.Session)
  (id : string) (db : gmap string Api.Agenda) :
  db !! id = None →
  Api.DELETE session id db
  = (inr (Api.mkResponse 401 (Api.body_error "Unauthorized")), db).
Proof.
  intros Hid. rewrite DELETE_run, Hid.
  by destruct (Api.requireAdmin session db) as [[?|?] ?].
Qed.

Lemma DELETE_missing_record_witness :
  agenda_db !! "a9" = None
  ∧ Api.DELETE (Some (session_with_role (Some "ADMIN"))) "a9" agenda_db
    = (inr (Api.mkResponse 401 (Api.body_error "Unauthorized")), agenda_db).
Proof.
  split; [reflexivity|].
  exact (DELETE_missing_record (Some (session_with_role (Some "ADMIN")))
           "a9" agenda_db eq_refl).
Defined.

(** X9: whatever the session and whatever it answers, [DELETE] leaves every
    record other than the one addressed as it was; and the record addressed
    is afterwards either gone or as it was. *)
Theorem DELETE_frame (session : option BetterAuth.Session)
  (id : string) (db : gmap string Api.Agenda) :
  let db' := (Api.DELETE session id db).2 in
  (∀ k, k ≠ id → db' !! k = db !! k)
  ∧ (db' !! id = None ∨ db' !! id = db !! id).
Proof.
  rewrite DELETE_run.
  destruct (Api.requireAdmin session db) as [[e|u] db1];
    destruct (db !! id) as [a|] eqn:E; simpl;
    try (split; [done | by right]).
  split.
  - intros k Hk. by apply lookup_delete_ne.
  - left. apply lookup_delete_eq.
Qed.

(** X10: [PUT] is all or nothing.  Either it answers 401 with the error
    Unauthorized and the table is as it was (so for a caller the guard
    turns down, a body that is not JSON or does not fit, a missing record
    and a new id that is taken), or it answers 200 with the updated record:
    then the caller's role is ADMIN or MANAGER, the record existed, and the
    table differs only in that the record, updated, sits under its possibly
    new id. *)
Theorem PUT_all_or_nothing (session : option BetterAuth.Session)
  (id : string) (body : AgendaApi.RequestBody)
  (db : gmap string Api.Agenda) :
  AgendaApi.PUT session id body db
  = (inr (AgendaApi.mkPutResponse 401 (AgendaApi.put_error "Unauthorized")),
     db)
  ∨ ∃ s d a,
      session = Some s
      ∧ (BetterAuth.role (BetterAuth.user s) = Some "ADMIN"
         ∨ BetterAuth.role (BetterAuth.user s) = Some "MANAGER")
      ∧ body = AgendaApi.json_data d
      ∧ db !! id = Some a
      ∧ (default id (AgendaApi.d_id d) = id
         ∨ db !! default id (AgendaApi.d_id d) = None)
      ∧ AgendaApi.PUT session id body db
        = (inr (AgendaApi.mkPutResponse 200
                  (AgendaApi.put_agenda (default id (AgendaApi.d_id d))
                     (AgendaApi.apply_data d a))),
           <[default id (AgendaApi.d_id d) := AgendaApi.apply_data d a]>
             (delete id db)).
Proof.
  rewrite PUT_run, requireManagerOrAdmin_run.
  destruct session as [s|]; [|by left].
  destruct (_ || _) eqn:Erole; [|by left].
  destruct body as [| |d]; [by left | by left |].
  destruct (db !! id) as [a|] eqn:Eid; [|by left].
  cbv zeta.
  destruct (bool_decide (default id (AgendaApi.d_id d) ≠ id)) eqn:E1;
    destruct (bool_decide (is_Some (db !! default id (AgendaApi.d_id d))))
      eqn:E2; simpl; [by left | | |].
  all: right; exists s, d, a; split; [done|]; split;
    [ apply orb_true_iff in Erole as [H|H]; apply opt_strict_eq_true in H;
      [by left | by right] |];
    split; [done|]; split; [done|]; split; [|done].
  - right. apply bool_decide_eq_false in E2.
    by apply eq_None_not_Some.
  - left. apply bool_decide_eq_false in E1.
    destruct (decide (default id (AgendaApi.d_id d) = id)); [done|].
    by destruct E1.
  - left. apply bool_decide_eq_false in E1.
    destruct (decide (default id (AgendaApi.d_id d) = id)); [done|].
    by destruct E1.
Qed.



(** A MANAGER moves the record; a USER does not. *)
Example PUT_manager_and_user :
  AgendaApi.PUT (Some (session_with_role (Some "MANAGER"))) "a1"
    (AgendaApi.json_data move_agenda) agenda_db
  = (inr (AgendaApi.mkPutResponse 200
            (AgendaApi.put_agenda "a1"
               (Api.mkAgenda "Reuniao" 1763000000 "Sala 5"))),
     <["a1" := Api.mkAgenda "Reuniao" 1763000000 "Sala 5"]>
       (delete "a1" agenda_db))
  ∧ AgendaApi.PUT (Some (session_with_role (Some "USER"))) "a1"
      (AgendaApi.json_data move_agenda) agenda_db
    = (inr (AgendaApi.mkPutResponse 401
              (AgendaApi.put_error "Unauthorized")), agenda_db).
Proof. split; by rewrite PUT_run. Qed.

(* ===================================================================== *)
(** ** More on the Project table: required columns and the primary key *)
(* ===================================================================== *)

Section ProjectKeyFacts.
Import Migration.


(** A row built column by column is accepted when each column accepts what
    was built for it. *)
Lemma row_accepts_map (f : Column → Value) (cols : list Column) :
  row_accepts cols (map f cols)
  = forallb (λ c, column_accepts c (f c)) cols.
Proof. induction cols as [|c cols IH]; simpl; [done | by rewrite IH]. Qed.








End ProjectKeyFacts.

(** X12: an INSERT is rejected, whatever else it sets and whatever the
    table holds, when it names none of id, title, description, imageUrl or
    updatedAt, the columns that are NOT NULL and have no default; and when
    it sets a NOT NULL column to NULL, those with a default included. *)
Theorem INSERT_required_columns (now : Z)
  (assignments : list (string * Migration.Value))
  (table : list Migration.Row) (c : Migration.Column) :
  c ∈ Migration.Project →
  Migration.not_null c = true →
  (Migration.assigned (Migration.col_name c) assignments = None
   ∧ Migration.col_default c = None)
  ∨ Migration.assigned (Migration.col_name c) assignments
    = Some Migration.NULL →
  Migration.INSERT now assignments table = None.
Proof.
  intros Hc Hnn Hcase. unfold Migration.INSERT. cbv zeta.
  rewrite row_accepts_map.
  assert (Hrej : forallb (λ c, Migration.column_accepts c
                     (Migration.inserted_value now assignments c))
                   Migration.Project = false).
  { apply not_true_is_false. intros Hall. rewrite forallb_forall in Hall.
    specialize (Hall c (proj1 (list_elem_of_In _ _) Hc)).
    unfold Migration.inserted_value in Hall.
    destruct Hcase as [[Ha Hd]|Ha]; rewrite Ha in Hall;
      [rewrite Hd in Hall|]; simpl in Hall; by rewrite Hnn in Hall. }
  rewrite Hrej. by rewrite andb_false_r.
Qed.

Lemma INSERT_required_columns_witness :
  Migration.mkColumn "updatedAt" Migration.TIMESTAMP true None
    ∈ Migration.Project
  ∧ Migration.INSERT 1763000000
      [ ("id", Migration.text "p1"); ("title", Migration.text "Portfolio");
        ("description", Migration.text "");
        ("imageUrl", Migration.text "/uploads/p1.png") ] []
    = None.
Proof.
  assert (H : Migration.mkColumn "updatedAt" Migration.TIMESTAMP true None
                ∈ Migration.Project).
  { unfold Migration.Project. do 8 apply list_elem_of_further.
    apply list_elem_of_here. }
  split; [exact H|].
  apply (INSERT_required_columns 1763000000 _ []
           (Migration.mkColumn "updatedAt" Migration.TIMESTAMP true None)
           H eq_refl).
  left. split; reflexivity.
Defined.





(* ===================================================================== *)
(** ** The project form component *)
(* ===================================================================== *)

Section FormComponentFacts.
Import ProjectForm ProjectFormComponent.

Lemma blob_truthy (u : string) :
  JS.startsWith u "blob:" = true → truthy_string (Some u) = true.
Proof. by destruct u. Qed.

(** Revoking the current image leaves no live URL behind. *)
Lemma revoke_current_clears (st : State) :
  preview_only st → revoke_current (v_imageUrl (values st)) (live st) = ∅.
Proof.
  intros [Hlive _]. unfold revoke_current, revokeObjectURL.
  destruct (JS.startsWith (v_imageUrl (values st)) "blob:") eqn:E.
  - rewrite (blob_truthy _ E). simpl.
    apply set_eq. intros u. split; [|set_solver].
    intros [Hu Hne]%elem_of_difference. destruct Hne.
    apply elem_of_singleton. by apply Hlive.
  - rewrite andb_false_r.
    apply set_eq. intros u. split; [|set_solver].
    intros Hu. destruct (Hlive u Hu) as [-> Hb]. congruence.
Qed.

Lemma onSubmit_clears (v : FormValues) up store (st : State) :
  preview_only st → v = values st →
  live (onSubmit v up store st).2 = ∅.
Proof.
  intros [Hlive _] ->. unfold onSubmit; simpl. unfold revokeObjectURL.
  destruct (JS.startsWith (v_imageUrl (values st)) "blob:") eqn:E.
  - apply set_eq. intros u. split; [|set_solver].
    intros [Hu Hne]%elem_of_difference. destruct Hne.
    apply elem_of_singleton. by apply Hlive.
  - apply set_eq. intros u. split; [|set_solver].
    intros Hu. destruct (Hlive u Hu) as [-> Hb]. congruence.
Qed.

Lemma preview_only_empty (st : State) : live st = ∅ → preview_only st.
Proof. intros H. split; [rewrite H; set_solver | done]. Qed.

Lemma selectedProject_effect_live (st : State) :
  live (selectedProject_effect st)
  = revoke_current (v_imageUrl (values st)) (live st).
Proof.
  unfold selectedProject_effect.
  destruct (selectedProject st) as [p|]; [|done].
  by destruct (isEditing st && truthy_string (p_id p)).
Qed.

Lemma preview_only_mount (selected : option Project) :
  preview_only (mount selected).
Proof.
  apply preview_only_empty. unfold mount.
  by rewrite selectedProject_effect_live.
Qed.

(** Every event keeps the invariant. *)
Lemma preview_only_step (st : State) (e : Event) :
  preview_only st → preview_only (step st e).
Proof.
  intros Hinv. pose proof Hinv as [Hlive Hurl].
  destruct e as [p|source|file previewUrl|s|s|s|s|b| |up store]; simpl.
  - apply preview_only_empty. unfold select.
    rewrite selectedProject_effect_live. simpl.
    by apply (revoke_current_clears st).
  - apply preview_only_empty. simpl. by apply revoke_current_clears.
  - destruct (imageSource st) eqn:Esrc; [done|].
    destruct (JS.startsWith previewUrl "blob:") eqn:Eb; [|done].
    destruct file as [f|]; [|done]. split; simpl.
    + rewrite (revoke_current_clears st Hinv). intros u Hu.
      apply elem_of_union in Hu as [Hu|Hu%elem_of_singleton];
        [by apply not_elem_of_empty in Hu | by subst].
    + rewrite Esrc. done.
  - done.
  - destruct (imageSource st) eqn:Esrc; [|done].
    apply preview_only_empty. simpl. by apply Hurl.
  - done.
  - done.
  - done.
  - apply preview_only_empty. simpl. by apply revoke_current_clears.
  - unfold handleSubmit.
    destruct (accepts (to_input (values st))); [|done].
    apply preview_only_empty. by apply onSubmit_clears.
Qed.

Lemma preview_only_run (st : State) (events : list Event) :
  preview_only st → preview_only (run st events).
Proof.
  revert st. induction events as [|e events IH]; intros st Hinv; [done|].
  simpl. apply IH. by apply preview_only_step.
Qed.

End FormComponentFacts.

(** X15: the form leaks no object URL.  After any sequence of events on a
    mounted form, the only object URL that may be live is the one the form
    holds as its imageUrl, none is live in URL mode, and unmounting the
    form leaves none live. *)
Theorem form_no_object_url_leak
  (selected : option ProjectFormComponent.Project)
  (events : list ProjectFormComponent.Event) :
  let st := ProjectFormComponent.run (ProjectFormComponent.mount selected)
              events in
  (∀ u, u ∈ ProjectFormComponent.live st →
        u = ProjectFormComponent.v_imageUrl (ProjectFormComponent.values st))
  ∧ (ProjectFormComponent.imageSource st = ProjectFormComponent.source_url →
     ProjectFormComponent.live st = ∅)
  ∧ ProjectFormComponent.live (ProjectFormComponent.unmount st) = ∅.
Proof.
  intros st.
  assert (Hinv : ProjectFormComponent.preview_only st).
  { apply preview_only_run, preview_only_mount. }
  split; [|split].
  - intros u Hu. by apply Hinv.
  - apply Hinv.
  - simpl. by apply revoke_current_clears.
Qed.

(** The form of the samples holds its preview as the one live URL. *)
Example form_with_preview_live :
  ProjectFormComponent.live form_with_preview = {[ "blob:1f0c" ]}
  ∧ ProjectFormComponent.v_imageUrl
      (ProjectFormComponent.values form_with_preview) = "blob:1f0c"
  ∧ ProjectFormComponent.imageFile form_with_preview = Some "photo.png".
Proof.
  split; [|done]. apply set_eq. intros u.
  unfold form_with_preview. simpl.
  unfold ProjectFormComponent.revoke_current. simpl. set_solver.
Qed.

(** Going through a membership in an explicit list of effects. *)
Ltac effect_cases H :=
  rewrite !elem_of_cons, elem_of_nil in H;
  repeat (destruct H as [H|H]);
  try discriminate H; try done; try (by injection H as ->).

Section SubmitFacts.
Import ProjectForm ProjectFormComponent.

(** [onSubmit] when a file was picked in file mode. *)
Lemma onSubmit_attempt (v : FormValues) up store (st : State) (f : string) :
  imageFile st = Some f → imageSource st = source_file →
  (onSubmit v up store st).1 =
    match upload up with
    | inl t => [fetch_upload f; console_error; toast_error (error_message t)]
    | inr url =>
        let call :=
          if isEditing st
          then (updateProject (default "" (selectedProject st ≫= p_id))
                  (dataToSubmit v url),
                "Projeto atualizado com sucesso!")
          else (createProject (dataToSubmit v url),
                "Projeto criado com sucesso!") in
        match store with
        | store_throws t =>
            [fetch_upload f; call.1; console_error;
             toast_error (error_message t)]
        | store_ok =>
            [fetch_upload f; call.1; toast_success call.2;
             setSelectedProject_null; onSuccess]
        end
    end.
Proof.
  intros Hf Hs. unfold onSubmit. rewrite Hf, Hs. simpl.
  destruct (upload up); [done|]. by destruct store.
Qed.

(** [onSubmit] when no file is held. *)
Lemma onSubmit_no_file (v : FormValues) up store (st : State) :
  imageFile st = None →
  (onSubmit v up store st).1 =
    let call :=
      if isEditing st
      then (updateProject (default "" (selectedProject st ≫= p_id))
              (dataToSubmit v (Some (v_imageUrl v))),
            "Projeto atualizado com sucesso!")
      else (createProject (dataToSubmit v (Some (v_imageUrl v))),
            "Projeto criado com sucesso!") in
    match store with
    | store_throws t =>
        [call.1; console_error; toast_error (error_message t)]
    | store_ok =>
        [call.1; toast_success call.2; setSelectedProject_null; onSuccess]
    end.
Proof.
  intros Hf. unfold onSubmit. rewrite Hf. simpl. by destruct store.
Qed.

Lemma mount_editing (p : Project) (id : string) :
  p_id p = Some id → id ≠ "" →
  let st := mount (Some p) in
  values st = values_of_project p
  ∧ imageFile st = None
  ∧ isEditing st = true
  ∧ selectedProject st = Some p.
Proof.
  intros Hid Hne. unfold mount, selectedProject_effect, isEditing. simpl.
  rewrite Hid. simpl. apply strict_eq_false in Hne. rewrite !Hne. simpl.
  rewrite Hid. simpl. by rewrite Hne.
Qed.

End SubmitFacts.

(** X16: when a file was picked in file mode, [onSubmit] uploads it first.
    If the upload fails, the store is not called: the effects are the
    upload, the log entry and an error toast that carries the message.
    Whatever does reach the store carries the URL the upload returned in
    place of the imageUrl of the form, with the other fields of the form
    unchanged. *)
Theorem onSubmit_upload (v : ProjectFormComponent.FormValues)
  (up : ProjectFormComponent.UploadOutcome)
  (store : ProjectFormComponent.StoreOutcome)
  (st : ProjectFormComponent.State) (f : string) :
  ProjectFormComponent.imageFile st = Some f →
  ProjectFormComponent.imageSource st = ProjectFormComponent.source_file →
  let effs := (ProjectFormComponent.onSubmit v up store st).1 in
  (∀ t, ProjectFormComponent.upload up = inl t →
     effs = [ ProjectFormComponent.fetch_upload f;
              ProjectFormComponent.console_error;
              ProjectFormComponent.toast_error
                (ProjectFormComponent.error_message t) ])
  ∧ (∀ d, ProjectFormComponent.createProject d ∈ effs
          ∨ (∃ id, ProjectFormComponent.updateProject id d ∈ effs) →
       ∃ url, ProjectFormComponent.upload up = inr url
              ∧ d = ProjectFormComponent.dataToSubmit v url)
  ∧ (∀ url, ProjectFormComponent.upload up = inr url →
       ProjectFormComponent.createProject
         (ProjectFormComponent.dataToSubmit v url) ∈ effs
       ∨ ∃ id, ProjectFormComponent.updateProject id
                 (ProjectFormComponent.dataToSubmit v url) ∈ effs).
Proof.
  intros Hf Hs effs. subst effs.
  rewrite (onSubmit_attempt v up store st f Hf Hs).
  destruct (ProjectFormComponent.upload up) as [t|url].
  - split; [by intros t' [= <-]|]. split; [|done].
    intros d [H|[id H]]; effect_cases H.
  - split; [done|]. cbv zeta.
    destruct (ProjectFormComponent.isEditing st), store as [|t];
      cbn [fst snd]; split;
      try (intros d [H|[id H]]; exists url; (split; [done|]);
           effect_cases H);
      intros url' [= <-];
      first [ left; apply list_elem_of_further, list_elem_of_here
            | right; eexists; apply list_elem_of_further, list_elem_of_here ].
Qed.

Lemma onSubmit_upload_witness :
  ProjectFormComponent.imageFile form_with_preview = Some "photo.png"
  ∧ ProjectFormComponent.imageSource form_with_preview
    = ProjectFormComponent.source_file
  ∧ (ProjectFormComponent.onSubmit
       (ProjectFormComponent.values form_with_preview)
       (ProjectFormComponent.upload_result false None None)
       ProjectFormComponent.store_ok form_with_preview).1
    = [ ProjectFormComponent.fetch_upload "photo.png";
        ProjectFormComponent.console_error;
        ProjectFormComponent.toast_error "Erro no upload da imagem." ].
Proof.
  split; [reflexivity|]. split; [reflexivity|].
  exact (proj1 (onSubmit_upload
                  (ProjectFormComponent.values form_with_preview)
                  (ProjectFormComponent.upload_result false None None)
                  ProjectFormComponent.store_ok form_with_preview
                  "photo.png" eq_refl eq_refl)
           (ProjectFormComponent.js_error "Erro no upload da imagem.")
           eq_refl).
Defined.

(** X17: a submit always clears the picked file and revokes the preview,
    but leaves the preview URL in the form.  So after a submit that failed,
    at the upload or at the store, of a form whose imageUrl is a preview,
    submitting again uploads nothing and hands the store the revoked
    preview URL as the image of the project. *)
Theorem resubmit_sends_revoked_preview (st : ProjectFormComponent.State)
  (up up' : ProjectFormComponent.UploadOutcome)
  (store store' : ProjectFormComponent.StoreOutcome) :
  ProjectForm.accepts
    (ProjectFormComponent.to_input (ProjectFormComponent.values st)) = true →
  JS.startsWith
    (ProjectFormComponent.v_imageUrl (ProjectFormComponent.values st))
    "blob:" = true →
  ProjectFormComponent.onSuccess
    ∉ (ProjectFormComponent.handleSubmit up store st).1 →
  let st1 := (ProjectFormComponent.handleSubmit up store st).2 in
  let effs := (ProjectFormComponent.handleSubmit up' store' st1).1 in
  let data :=
    ProjectFormComponent.dataToSubmit (ProjectFormComponent.values st)
      (Some (ProjectFormComponent.v_imageUrl
               (ProjectFormComponent.values st))) in
  ProjectFormComponent.imageFile st1 = None
  ∧ (ProjectFormComponent.v_imageUrl (ProjectFormComponent.values st)
     ∉ ProjectFormComponent.live st1)
  ∧ (∀ f', ProjectFormComponent.fetch_upload f' ∉ effs)
  ∧ (head effs = Some (ProjectFormComponent.createProject data)
     ∨ ∃ id, head effs = Some (ProjectFormComponent.updateProject id data)).
Proof.
  intros Hacc Hblob _ st1 effs data.
  assert (Hst1 : st1 = (ProjectFormComponent.onSubmit
                          (ProjectFormComponent.values st) up store st).2).
  { unfold st1, ProjectFormComponent.handleSubmit. by rewrite Hacc. }
  assert (Hvals : ProjectFormComponent.values st1
                  = ProjectFormComponent.values st) by by rewrite Hst1.
  assert (Hfile : ProjectFormComponent.imageFile st1 = None)
    by by rewrite Hst1.
  split; [done|]. split.
  - rewrite Hst1. simpl. rewrite Hblob.
    unfold ProjectFormComponent.revokeObjectURL.
    intros [_ H]%elem_of_difference. apply H. by apply elem_of_singleton.
  - assert (Heffs : effs = (ProjectFormComponent.onSubmit
                              (ProjectFormComponent.values st) up' store'
                              st1).1).
    { unfold effs, ProjectFormComponent.handleSubmit.
      by rewrite Hvals, Hacc. }
    rewrite Heffs, (onSubmit_no_file _ up' store' st1 Hfile). cbv zeta.
    destruct (ProjectFormComponent.isEditing st1), store' as [|t'];
      cbn [fst snd]; split; eauto;
      intros f' H; effect_cases H.
Qed.

Lemma resubmit_sends_revoked_preview_witness :
  ProjectForm.accepts
    (ProjectFormComponent.to_input
       (ProjectFormComponent.values form_with_preview)) = true
  ∧ (ProjectFormComponent.onSuccess
     ∉ (ProjectFormComponent.handleSubmit
          (ProjectFormComponent.upload_throws ProjectFormComponent.js_other)
          ProjectFormComponent.store_ok form_with_preview).1)
  ∧ head (ProjectFormComponent.handleSubmit
            (ProjectFormComponent.upload_result true (Some "/up/1.png") None)
            ProjectFormComponent.store_ok
            (ProjectFormComponent.handleSubmit
               (ProjectFormComponent.upload_throws
                  ProjectFormComponent.js_other)
               ProjectFormComponent.store_ok form_with_preview).2).1
    = Some (ProjectFormComponent.createProject
              (ProjectFormComponent.mkSubmission "Portfolio"
                 (Some "blob:1f0c") (Some "") "" true)).
Proof.
  assert (Hfailed :
    ProjectFormComponent.onSuccess
    ∉ (ProjectFormComponent.handleSubmit
         (ProjectFormComponent.upload_throws ProjectFormComponent.js_other)
         ProjectFormComponent.store_ok form_with_preview).1).
  { change ((ProjectFormComponent.handleSubmit
               (ProjectFormComponent.upload_throws
                  ProjectFormComponent.js_other)
               ProjectFormComponent.store_ok form_with_preview).1)
      with [ ProjectFormComponent.fetch_upload "photo.png";
             ProjectFormComponent.console_error;
             ProjectFormComponent.toast_error
               "Ocorreu um erro ao salvar o projeto." ].
    intros H. effect_cases H. }
  split; [reflexivity|]. split; [exact Hfailed|].
  destruct (resubmit_sends_revoked_preview form_with_preview
              (ProjectFormComponent.upload_throws
                 ProjectFormComponent.js_other)
              (ProjectFormComponent.upload_result true (Some "/up/1.png")
                 None)
              ProjectFormComponent.store_ok ProjectFormComponent.store_ok
              eq_refl eq_refl Hfailed)
    as (_ & _ & _ & [H|[id H]]).
  - exact H.
  - reflexivity.
Defined.

(** X18: a project opened for editing and saved untouched reaches the store
    as one [updateProject] under the id of the project, with its own title,
    imageUrl, description and active flag, an empty string for each text
    the project lacks, the link included, and no upload. *)
Theorem edit_untouched_submits_project (p : ProjectFormComponent.Project)
  (id : string) (up : ProjectFormComponent.UploadOutcome) :
  ProjectFormComponent.p_id p = Some id → id ≠ "" →
  ProjectForm.accepts
    (ProjectFormComponent.to_input
       (ProjectFormComponent.values_of_project p)) = true →
  (ProjectFormComponent.handleSubmit up ProjectFormComponent.store_ok
     (ProjectFormComponent.mount (Some p))).1
  = [ ProjectFormComponent.updateProject id
        (ProjectFormComponent.mkSubmission
           (JS.or_default (ProjectFormComponent.p_title p) "")
           (Some (JS.or_default (ProjectFormComponent.p_imageUrl p) ""))
           (Some (JS.or_default (ProjectFormComponent.p_link p) ""))
           (JS.or_default (ProjectFormComponent.p_description p) "")
           (default true (ProjectFormComponent.p_isActive p)));
      ProjectFormComponent.toast_success "Projeto atualizado com sucesso!";
      ProjectFormComponent.setSelectedProject_null;
      ProjectFormComponent.onSuccess ].
Proof.
  intros Hid Hne Hacc.
  destruct (mount_editing p id Hid Hne) as (Hv & Hf & He & Hsel).
  unfold ProjectFormComponent.handleSubmit. rewrite Hv, Hacc.
  rewrite (onSubmit_no_file _ up _ _ Hf). cbv zeta.
  rewrite He, Hsel. simpl. by rewrite Hid.
Qed.

Lemma edit_untouched_submits_project_witness :
  ProjectFormComponent.p_id stored_project = Some "p1"
  ∧ "p1" ≠ ""
  ∧ (ProjectFormComponent.handleSubmit
       (ProjectFormComponent.upload_throws ProjectFormComponent.js_other)
       ProjectFormComponent.store_ok
       (ProjectFormComponent.mount (Some stored_project))).1
    = [ ProjectFormComponent.updateProject "p1"
          (ProjectFormComponent.mkSubmission "Portfolio"
             (Some "/uploads/p1.png") (Some "") "Site" false);
        ProjectFormComponent.toast_success "Projeto atualizado com sucesso!";
        ProjectFormComponent.setSelectedProject_null;
        ProjectFormComponent.onSuccess ].
Proof.
  assert (H : "p1" ≠ "") by discriminate.
  split; [reflexivity|]. split; [exact H|].
  exact (edit_untouched_submits_project stored_project "p1"
           (ProjectFormComponent.upload_throws ProjectFormComponent.js_other)
           eq_refl H eq_refl).
Defined.

(** X19: the schema puts no bound on the link: an accepted input stays
    accepted with any string as its link and with its link left out; with
    a link that is null, a number or a boolean it is rejected. *)
Theorem link_not_validated (input : ProjectForm.FormInput) :
  ProjectForm.accepts input = true →
  let with_link l :=
    ProjectForm.mkInput (ProjectForm.title input)
      (ProjectForm.imageUrl input) l (ProjectForm.description input)
      (ProjectForm.isActive input) in
  (∀ s, ProjectForm.accepts (with_link (ProjectForm.str s)) = true)
  ∧ ProjectForm.accepts (with_link ProjectForm.undefined) = true
  ∧ ProjectForm.accepts (with_link ProjectForm.null) = false
  ∧ (∀ z, ProjectForm.accepts (with_link (ProjectForm.number z)) = false)
  ∧ (∀ b, ProjectForm.accepts (with_link (ProjectForm.boolean b)) = false).
Proof.
  intros (t & i & d & b & Ht & Hlt & Hi & Hli & Hd & Hld & Hb & _)%accepts_iff
    with_link.
  assert (Hok : ∀ l, (l = ProjectForm.undefined ∨ ∃ s, l = ProjectForm.str s)
                     → ProjectForm.accepts (with_link l) = true).
  { intros l Hl. apply accepts_iff. exists t, i, d, b. by simpl. }
  assert (Hbad : ∀ l, l ≠ ProjectForm.undefined →
                      (∀ s, l ≠ ProjectForm.str s) →
                      ProjectForm.accepts (with_link l) = false).
  { intros l H1 H2. apply not_true_is_false.
    intros (_ & _ & _ & _ & _ & _ & _ & _ & _ & _ & _ & [H|[s H]])%accepts_iff;
      simpl in H; [done | by destruct (H2 s)]. }
  split; [intros s; apply Hok; right; by exists s|].
  split; [apply Hok; by left|].
  split; [by apply Hbad|]. split; intros ?; by apply Hbad.
Qed.

Lemma link_not_validated_witness :
  ProjectForm.accepts short_form = true
  ∧ ProjectForm.accepts
      (ProjectForm.mkInput (ProjectForm.title short_form)
         (ProjectForm.imageUrl short_form)
         (ProjectForm.str
            "https://example.com/a/very/long/link/that/has/no/bound")
         (ProjectForm.description short_form)
         (ProjectForm.isActive short_form))
    = true.
Proof.
  split; [reflexivity|].
  exact (proj1 (link_not_validated short_form eq_refl)
           "https://example.com/a/very/long/link/that/has/no/bound").
Defined.

(* ===================================================================== *)
(** ** The agenda card, the projects page and the scroll hook *)
(* ===================================================================== *)

(** X20: the card shows its Excluir button exactly to the sessions that
    pass the admin guard of the server, and never without its Editar
    button. *)
Theorem AgendaCard_excluir (q : UseAuth.SessionQuery) :
  let b := AgendaCard.buttons (UseAuth.useAuth q) in
  (AgendaCard.excluir b = true
   ↔ ∀ db : gmap string Api.Agenda,
       ∃ u, Api.requireAdmin (UseAuth.data q) db = (inr u, db))
  ∧ (AgendaCard.excluir b = true → AgendaCard.editar b = true).
Proof.
  cbv zeta. unfold AgendaCard.buttons, AgendaCard.excluir, AgendaCard.editar.
  destruct (facade_flags_by_session q) as (HA & _ & _).
  split.
  - rewrite HA. split.
    + intros H db. rewrite requireAdmin_run.
      destruct (UseAuth.data q) as [s|]; [|done].
      simpl in H. rewrite H. by eexists.
    + intros H. destruct (H ∅) as [u Hu]. rewrite requireAdmin_run in Hu.
      destruct (UseAuth.data q) as [s|]; [|done]. simpl.
      by destruct (JS.opt_strict_eq _ "ADMIN").
  - intros H. destruct (useAuth_by_role q) as (Hadm & _ & _ & ->).
    rewrite Hadm in H. unfold UseAuth.hasPermission. by rewrite H.
Qed.

Section ProjectsPageFacts.
Import ProjectFormComponent ProjectsPage.

(** The calls a sequence of events makes, from any state of the page: each
    is for the project the dialog holds or for one chosen later. *)
Lemma run_calls (st : State) (events : list Event) :
  (∀ id, id ∈ (run st events).1 →
     ∃ p, (projectToDelete st = Some p ∨ p ∈ pressed events) ∧ id = p_id p)
  ∧ (length (run st events).1
     ≤ length (option_list (projectToDelete st)) + length (pressed events))%nat.
Proof.
  revert st. induction events as [|e events IH]; intros st.
  { split; [intros id H; by inversion H | simpl; lia]. }
  cbn [run]. cbv zeta. cbn [fst snd].
  destruct (IH (step st e).2) as [IHin IHlen].
  assert (Hkeep :
    (step st e).1 = [] →
    projectToDelete (step st e).2 = projectToDelete st →
    pressed (e :: events) = pressed events →
    (∀ id, id ∈ (step st e).1 ++ (run (step st e).2 events).1 →
       ∃ p, (projectToDelete st = Some p ∨ p ∈ pressed (e :: events))
            ∧ id = p_id p)
    ∧ (length ((step st e).1 ++ (run (step st e).2 events).1)
       ≤ length (option_list (projectToDelete st))
         + length (pressed (e :: events)))%nat).
  { intros -> Hp ->. rewrite Hp in IHin, IHlen. by split. }
  destruct e as [|p|  |p| |]; try (by apply Hkeep).
  - cbn [step fst snd] in *. split.
    + intros id Hid. destruct (IHin id Hid) as (p' & [H|H] & ->).
      * injection H as ->. exists p'. split; [right; by left | done].
      * exists p'. split; [right; by right | done].
    + simpl in *. lia.
  - cbn [step fst snd] in *. split.
    + intros id Hid. destruct (IHin id Hid) as (p' & [H|H] & ->);
        [discriminate H | eauto].
    + simpl in *. lia.
  - cbn [step] in *. destruct (isDeleteDialogOpen st); [|by apply Hkeep].
    unfold handleDeleteConfirm in *.
    destruct (projectToDelete st) as [p0|] eqn:E; [|by apply Hkeep].
    cbn [fst snd] in *. split.
    + intros id [->|Hid]%elem_of_cons; [by eauto|].
      destruct (IHin id Hid) as (p' & [H|H] & ->);
        [discriminate H | eauto].
    + simpl in *. lia.
Qed.

Lemma delete_dialog_invariant (st : State) (events : list Event) :
  (isDeleteDialogOpen st = true ↔ is_Some (projectToDelete st)) →
  isDeleteDialogOpen (run st events).2 = true
  ↔ is_Some (projectToDelete (run st events).2).
Proof.
  revert st. induction events as [|e events IH]; intros st Hinv; [done|].
  cbn [run]. cbv zeta. cbn [fst snd]. apply IH.
  destruct e as [|p|  |p| |]; cbn [step fst snd]; try done.
  - simpl. split; [done | by intros [? ?]].
  - destruct (isDeleteDialogOpen st) eqn:Eopen; [|simpl; by rewrite Eopen].
    unfold handleDeleteConfirm.
    destruct (projectToDelete st) eqn:Ep; simpl.
    + split; [done | by intros [? ?]].
    + by rewrite Eopen, Ep.
Qed.

End ProjectsPageFacts.

(** X21: on the projects page, whatever the user does, every call of
    [deleteProject] carries the id of a project whose Excluir button was
    pressed, there are no more calls than such presses, and the delete
    dialog is open exactly while a project is held for deletion. *)
Theorem ProjectsPage_deletes_what_was_chosen
  (events : list ProjectsPage.Event) :
  let r := ProjectsPage.run ProjectsPage.initial events in
  (∀ id, id ∈ r.1 →
     ∃ p, p ∈ ProjectsPage.pressed events
          ∧ id = ProjectFormComponent.p_id p)
  ∧ (length r.1 ≤ length (ProjectsPage.pressed events))%nat
  ∧ (ProjectsPage.isDeleteDialogOpen r.2 = true
     ↔ is_Some (ProjectsPage.projectToDelete r.2)).
Proof.
  cbv zeta. destruct (run_calls ProjectsPage.initial events) as [Hin Hlen].
  split; [|split].
  - intros id Hid. destruct (Hin id Hid) as (p & [H|H] & ->); [done|].
    by exists p.
  - exact Hlen.
  - apply delete_dialog_invariant. simpl. split; [done | by intros [? ?]].
Qed.

(** A second confirm finds the dialog closed and deletes nothing. *)
Example ProjectsPage_double_confirm :
  (ProjectsPage.run ProjectsPage.initial
     [ ProjectsPage.ev_excluir stored_project;
       ProjectsPage.ev_confirm; ProjectsPage.ev_confirm ]).1
  = [Some "p1"].
Proof. reflexivity. Qed.

Section ScrollFacts.
Import ScrollAnimation.

Lemma report_unobserved (triggerOnce : bool) (v : bool)
  (entries : list bool) :
  foldl (report triggerOnce) (mkState v false) entries = mkState v false.
Proof. induction entries as [|e entries IH]; [done | exact IH]. Qed.

Lemma run_once_from (entries : list bool) :
  foldl (report true) initial entries
  = if existsb (λ e, e) entries then mkState true false else initial.
Proof.
  induction entries as [|e entries IH]; [done|].
  destruct e; simpl.
  - apply report_unobserved.
  - exact IH.
Qed.

Lemma run_always_from (v : bool) (entries : list bool) :
  foldl (report false) (mkState v true) entries
  = mkState (default v (last entries)) true.
Proof.
  revert v. induction entries as [|e entries IH]; intros v; [done|].
  simpl. replace (report false (mkState v true) e) with (mkState e true)
    by by destruct e.
  rewrite IH, last_cons. by destruct (last entries).
Qed.

End ScrollFacts.

(** X22: with [triggerOnce] (the default), [isVisible] is true exactly when
    some entry reported so far was intersecting; once true it stays true
    whatever is reported later, and the element is no longer observed. *)
Theorem useScrollAnimation_once (entries more : list bool) :
  ScrollAnimation.isVisible (ScrollAnimation.run true entries)
    = existsb (λ e, e) entries
  ∧ ScrollAnimation.observing (ScrollAnimation.run true entries)
    = negb (existsb (λ e, e) entries)
  ∧ (ScrollAnimation.isVisible (ScrollAnimation.run true entries) = true →
     ScrollAnimation.run true (entries ++ more)
     = ScrollAnimation.mkState true false).
Proof.
  unfold ScrollAnimation.run. rewrite foldl_app, !run_once_from.
  destruct (existsb (λ e, e) entries); simpl; [|done].
  repeat split. intros _. apply report_unobserved.
Qed.

(** X23: without [triggerOnce], [isVisible] is what the last entry reported
    said (false before any), and the element stays observed. *)
Theorem useScrollAnimation_always (entries : list bool) :
  ScrollAnimation.run false entries
  = ScrollAnimation.mkState (default false (last entries)) true.
Proof. apply run_always_from. Qed.

(** X24: switching the image source, to either mode, empties the imageUrl
    of the form, drops the picked file and leaves no live object URL of
    the form; the form cannot be submitted until it has an image again:
    a submit then does nothing at all. *)
Theorem source_change_needs_new_image
  (selected : option ProjectFormComponent.Project)
  (events : list ProjectFormComponent.Event)
  (source : ProjectFormComponent.ImageSource)
  (up : ProjectFormComponent.UploadOutcome)
  (store : ProjectFormComponent.StoreOutcome) :
  let st := ProjectFormComponent.handleImageSourceChange source
              (ProjectFormComponent.run
                 (ProjectFormComponent.mount selected) events) in
  ProjectFormComponent.v_imageUrl (ProjectFormComponent.values st) = ""
  ∧ ProjectFormComponent.imageFile st = None
  ∧ ProjectFormComponent.live st = ∅
  ∧ ProjectFormComponent.handleSubmit up store st = ([], st).
Proof.
  cbv zeta. split; [done|]. split; [done|]. split.
  - simpl. apply revoke_current_clears, preview_only_run, preview_only_mount.
  - unfold ProjectFormComponent.handleSubmit.
    destruct (ProjectForm.accepts _) eqn:E; [|done].
    apply accepts_iff in E as (t & i & d & b & _ & _ & Hi & Hli & _).
    simpl in Hi. injection Hi as <-. simpl in Hli. lia.
Qed.
